(** * Authentication, session and proxy orchestration of the chat backend

    A shallow embedding of the module [lib/auth] (return-path validation,
    the OIDC transaction life cycle, the group check, the login and callback
    routes) and of the proxy routes of [server.js], followed by the
    properties of these functions.

    Conventions.
    - A JavaScript string is the list of its UTF-16 code units.
    - A JavaScript value of unknown shape (a query parameter, a claim, a
      cookie) is a [value]; the operators the code applies to such values
      ([!v], [a || b], [a && b], [===] against a string, [Array.isArray],
      property access) are written out.
    - An [async] function that may throw is a computation that returns
      either an [Error] or a result, and threads the session it mutates.
    - Functions of the platform or of third-party packages (the WHATWG
      [URL] class, the OIDC client, [express-session], [jsonwebtoken],
      [node-fetch], [JSON.stringify]) are parameters of the code that calls
      them. *)

From Stdlib Require Import ZArith NArith List String Ascii Bool Lia.
From stdpp Require Import base option list gmap.

Open Scope N_scope.

(** ** JavaScript strings and values *)

Module JS.

(** A string is a sequence of 16-bit code units. *)
Abbreviation jsstring := (list N).

(** The code units of an ASCII literal. *)
Definition js (s : string) : jsstring :=
  map N_of_ascii (list_ascii_of_string s).

#[global] Arguments js : simpl never.

(** [WhiteSpace] and [LineTerminator] of ECMA-262: what
    [String.prototype.trim] strips. *)
Definition isWhiteSpace (c : N) : bool :=
  (9 <=? c) && (c <=? 13)
  || (c =? 32) || (c =? 160) || (c =? 5760)
  || (8192 <=? c) && (c <=? 8202)
  || (c =? 8232) || (c =? 8233) || (c =? 8239) || (c =? 8287)
  || (c =? 12288) || (c =? 65279).

Fixpoint trimStart (s : jsstring) : jsstring :=
  match s with
  | [] => []
  | c :: t => if isWhiteSpace c then trimStart t else s
  end.

Fixpoint trimEnd (s : jsstring) : jsstring :=
  match s with
  | [] => []
  | c :: t =>
      match trimEnd t with
      | [] => if isWhiteSpace c then [] else [c]
      | t' => c :: t'
      end
  end.

(** [s.trim()] *)
Definition trim (s : jsstring) : jsstring := trimEnd (trimStart s).

(** The string ['\\'] of the source: one backslash. *)
Definition backslash : jsstring := [92].

(** [s.startsWith(p)] *)
Fixpoint startsWith (s p : jsstring) {struct p} : bool :=
  match p, s with
  | [], _ => true
  | _ :: _, [] => false
  | a :: p', b :: s' => (a =? b) && startsWith s' p'
  end.

(** [s.includes(p)] *)
Fixpoint includes (s p : jsstring) : bool :=
  startsWith s p ||
  match s with
  | [] => false
  | _ :: t => includes t p
  end.

(** [s.replace(/\/+/g, '/')]: every maximal run of slashes becomes one
    slash, that is, a slash followed by a slash is dropped. *)
Fixpoint collapseSlashes (s : jsstring) : jsstring :=
  match s with
  | [] => []
  | c :: t =>
      let followed := match t with d :: _ => d =? 47 | [] => false end in
      if (c =? 47) && followed then collapseSlashes t
      else c :: collapseSlashes t
  end.

(** Values as they come out of a query string, a cookie jar or the
    payload of a token.  Numbers are kept as integers: the code never
    computes with them, it only tests them for truthiness and compares
    them with strings. *)
#[warnings="-register-all"]
Inductive value : Type :=
| VUndefined
| VNull
| VBool (b : bool)
| VNum (n : Z)
| VStr (s : jsstring)
| VArr (items : list value)
| VObj (props : list (jsstring * value)).

(** An object is the list of its own properties; the first entry of a
    name is the property. *)
Abbreviation object := (list (jsstring * value)).

(** [ToBoolean] *)
Definition truthy (v : value) : bool :=
  match v with
  | VUndefined | VNull => false
  | VBool b => b
  | VNum n => negb (n =? 0)%Z
  | VStr s => match s with [] => false | _ => true end
  | VArr _ | VObj _ => true
  end.

(** [a || b] and [a && b] *)
Definition or (a b : value) : value := if truthy a then a else b.
Definition and (a b : value) : value := if truthy a then b else a.

(** [o.name] on an object *)
Fixpoint get (o : object) (name : jsstring) : value :=
  match o with
  | [] => VUndefined
  | (k, v) :: rest => if decide (k = name) then v else get rest name
  end.

(** [v.name] on a value that is not [null] or [undefined]: only objects
    carry the properties the code asks for. *)
Definition prop (v : value) (name : jsstring) : value :=
  match v with
  | VObj o => get o name
  | _ => VUndefined
  end.

(** [v === s] for a string [s] *)
Definition eqStr (v : value) (s : jsstring) : bool :=
  match v with
  | VStr t => bool_decide (t = s)
  | _ => false
  end.

(** [Array.isArray(v)] *)
Definition isArray (v : value) : bool :=
  match v with VArr _ => true | _ => false end.

(** [v.includes(s)] for an array [v] and a string [s] *)
Definition arrayIncludes (v : value) (s : jsstring) : bool :=
  match v with
  | VArr items => existsb (fun item => eqStr item s) items
  | _ => false
  end.

(** [!s] for a string [s] *)
Definition isEmpty (s : jsstring) : bool :=
  match s with [] => true | _ :: _ => false end.

(** [a || b] for strings *)
Definition orStr (a b : jsstring) : jsstring := if isEmpty a then b else a.

End JS.

Import JS.

(** ** The URL class *)

Module Url.

(** The four getters of a parsed [URL] that the code reads. *)
Record URL := mkURL {
  origin : jsstring;
  pathname : jsstring;
  search : jsstring;
  hash : jsstring
}.

(** [new URL(s)] with no base: [None] when the constructor throws. *)
Abbreviation parser := (jsstring -> option URL).

(** Without a base, the parser needs a scheme, which starts with a
    letter: the empty string and a string that starts with a slash do not
    parse. *)
Definition requires_scheme (new_URL : parser) : Prop :=
  forall s, s = [] \/ startsWith s (js "/") = true -> new_URL s = None.

Definition plain (c : N) : bool :=
  (97 <=? c) && (c <=? 122) || (65 <=? c) && (c <=? 90)
  || (48 <=? c) && (c <=? 57) || (c =? 45) || (c =? 95).

(** A path made of segments of letters, digits, [-], [_] and dots, none
    of which starts with a dot: the parser leaves such a path as it
    is. *)
Fixpoint plainPath (s : jsstring) : bool :=
  match s with
  | [] => true
  | c :: t =>
      if c =? 47 then
        match t with
        | d :: _ => (plain d || (d =? 47)) && plainPath t
        | [] => true
        end
      else (plain c || (c =? 46)) && plainPath t
  end.

(** A reference parser to run the code on concrete inputs.  It accepts
    [https://example.com] and [https://app.example.org], each followed
    by nothing or by a plain path, and answers as the WHATWG parser does
    on them; every other input is outside its domain and is answered
    [None]. *)
Definition sampleOf (host s : jsstring) : option URL :=
  let o := js "https://" ++ host in
  if startsWith s o then
    match drop (length o) s with
    | [] => Some (mkURL o (js "/") [] [])
    | (47 :: _) as p => if plainPath p then Some (mkURL o p [] []) else None
    | _ => None
    end
  else None.

Definition sample : parser := fun s =>
  match sampleOf (js "example.com") s with
  | Some u => Some u
  | None => sampleOf (js "app.example.org") s
  end.

(** Whether both strings parse, to URLs of one origin. *)
Definition sameOrigin (new_URL : parser) (s baseUrl : jsstring) : bool :=
  match new_URL s, new_URL baseUrl with
  | Some url, Some base => bool_decide (origin url = origin base)
  | _, _ => false
  end.

End Url.

Import Url.

(** ** lib/config.js: the settings the code reads *)

Module Config.

Record Entra := {
  tenantId : jsstring;
  clientId : jsstring;
  clientSecret : jsstring;
  redirectPath : jsstring;
  postLogoutRedirectPath : jsstring;
  allowedGroupId : jsstring
}.

Record N8n := {
  webhookUrl : jsstring;
  webhookUrlTest : jsstring;
  username : jsstring;
  password : jsstring
}.

Record Legacy := {
  enablePasswordLogin : bool;
  jwtSecret : jsstring
}.

Record Config := {
  baseUrl : jsstring;
  entra : Entra;
  n8n : N8n;
  legacy : Legacy
}.

End Config.

(** ** lib/auth.js *)

Module Auth.

Import Config.

(** An [Error] object, as far as the code reads it. *)
Record Error := mkError { message : jsstring }.

(** The outcome of a call that may throw, or of an awaited promise that
    may reject. *)
Abbreviation result A := (Error + A)%type.

(** *** The session record *)

Record Transaction := {
  state : jsstring;
  nonce : jsstring;
  codeVerifier : jsstring;
  returnTo : jsstring;
  createdAt : Z
}.

Record User := {
  sub : value;
  email : value;
  name : value;
  authorized : bool;
  idToken : value
}.

(** [req.session]: a property that is [None] is absent. *)
Record Session := {
  user : option User;
  oidcTransaction : option Transaction
}.

(** *** Computations on a session

    A function that receives the session object mutates it in place, also
    on the paths that end in a [throw]: the session is threaded through
    both outcomes. *)

Definition async (A : Type) : Type := Session -> result A * Session.

#[global] Instance async_ret : MRet async :=
  fun A x session => (inr x, session).

#[global] Instance async_bind : MBind async :=
  fun A B k m session =>
    match m session with
    | (inl err, session') => (inl err, session')
    | (inr x, session') => k x session'
    end.

#[global] Instance async_throw : MThrow Error async :=
  fun A err session => (inl err, session).

(** [await p] for a promise that has settled as [p] *)
Definition await {A} (p : result A) : async A :=
  fun session => (p, session).

(** [const { oidcTransaction } = session] *)
Definition readOidcTransaction : async (option Transaction) :=
  fun session => (inr (oidcTransaction session), session).

(** [delete session.oidcTransaction] *)
Definition deleteOidcTransaction : async unit :=
  fun session =>
    (inr tt, {| user := user session; oidcTransaction := None |}).

(** [session.oidcTransaction = txn] *)
Definition writeOidcTransaction (txn : Transaction) : async unit :=
  fun session =>
    (inr tt, {| user := user session; oidcTransaction := Some txn |}).

(** [session.user = u] *)
Definition writeUser (u : User) (session : Session) : Session :=
  {| user := Some u; oidcTransaction := oidcTransaction session |}.

(** *** The OIDC client of the [openid-client] package *)

Record Checks := {
  code_verifier : jsstring;
  checks_state : jsstring;
  checks_nonce : jsstring
}.

Record AuthorizationParameters := {
  scope : jsstring;
  param_state : jsstring;
  param_nonce : jsstring;
  code_challenge : jsstring;
  code_challenge_method : jsstring
}.

(** [claims] is the method [tokenSet.claims()]. *)
Record TokenSet := {
  claims : result object;
  id_token : value
}.

Record Client := {
  authorizationUrl : AuthorizationParameters -> jsstring;
  callbackParams : object -> result value;
  callback : jsstring -> value -> Checks -> result TokenSet
}.

(** The values one login draws: two calls of [generateSecureRandom] and
    one of [generators.codeVerifier]. *)
Record Drawn := {
  drawnState : jsstring;
  drawnNonce : jsstring;
  drawnCodeVerifier : jsstring
}.

(** *** The messages of the errors the module throws *)

Definition NoTransaction : Error :=
  mkError (js "No OIDC transaction found in session. Please try logging in again.").

Definition TransactionExpired : Error :=
  mkError (js "Login session expired. Please try again.").

Definition StateMismatch : Error :=
  mkError (js "Invalid state parameter. Possible CSRF attack.").

Definition NonceMismatch : Error :=
  mkError (js "Invalid nonce in ID token.").

Definition GroupOverage : Error :=
  mkError (js "Group membership could not be verified. Your account has too many group memberships. Please contact your administrator.").

Definition GroupClaimMissing : Error :=
  mkError (js "Group membership could not be verified. The application is not configured to receive group claims. Please contact your administrator.").

(** *** Requests and responses of the routes *)

Record Request := {
  sessionID : jsstring;
  session : Session;
  query : object
}.

Inductive Response : Type :=
| Redirect (location : jsstring)
| LoginErrorPage (status : Z) (escapedMessage : jsstring)
| NextError (err : Error).

Section WithPlatform.

Variable config : Config.

(** [new URL(s)] *)
Variable new_URL : parser.

(** What [await getOidcClient()] settles as. *)
Variable getOidcClient : result Client.

(** [generators.codeChallenge] *)
Variable codeChallenge : jsstring -> jsstring.

(** [String(v)], the message of [new Error(v)] *)
Variable ToString : value -> jsstring.

(** [req.session.regenerate(cb)] of [express-session]: the error handed to
    the callback, if any, and the request as the callback finds it. *)
Variable regenerate : Request -> option Error * Request.

(** [validateReturnTo(returnTo, baseUrl)] *)
Definition validateReturnTo (returnTo : value) (baseUrl : jsstring)
  : jsstring :=
  match returnTo with
  | VStr ((_ :: _) as s) =>
      let trimmed := trim s in
      let relative :=
        if startsWith trimmed (js "/")
           && negb (startsWith trimmed (js "//"))
        then
          let normalized := collapseSlashes trimmed in
          if negb (includes normalized (js ".."))
             && negb (includes normalized backslash)
          then Some normalized
          else None
        else None in
      match relative with
      | Some normalized => normalized
      | None =>
          match new_URL trimmed with
          | None => js "/"
          | Some url =>
              match new_URL baseUrl with
              | None => js "/"
              | Some base =>
                  if bool_decide (origin url = origin base)
                  then pathname url ++ search url ++ hash url
                  else js "/"
              end
          end
      end
  | _ => js "/"
  end.

(** [buildAuthorizationUrl(session, returnTo)], at time [now] *)
Definition buildAuthorizationUrl (drawn : Drawn) (now : Z)
    (returnTo : value) : async jsstring :=
  client ← await getOidcClient;
  let state := drawnState drawn in
  let nonce := drawnNonce drawn in
  let codeVerifier := drawnCodeVerifier drawn in
  let codeChallenge := codeChallenge codeVerifier in
  writeOidcTransaction
    {| state := state;
       nonce := nonce;
       codeVerifier := codeVerifier;
       returnTo := validateReturnTo returnTo (baseUrl config);
       createdAt := now |};;
  mret (authorizationUrl client
    {| scope := js "openid profile email";
       param_state := state;
       param_nonce := nonce;
       code_challenge := codeChallenge;
       code_challenge_method := js "S256" |}).

Definition TRANSACTION_TTL : Z := 5 * 60 * 1000.

(** [handleCallback(session, query)], at time [now] *)
Definition handleCallback (now : Z) (query : object)
  : async (TokenSet * object * jsstring) :=
  client ← await getOidcClient;
  oidcTransaction ← readOidcTransaction;
  match oidcTransaction with
  | None => mthrow NoTransaction
  | Some txn =>
      if (now - createdAt txn >? TRANSACTION_TTL)%Z then
        deleteOidcTransaction;;
        mthrow TransactionExpired
      else
        if negb (eqStr (get query (js "state")) (state txn)) then
          deleteOidcTransaction;;
          mthrow StateMismatch
        else
          params ← await (callbackParams client query);
          let redirectUri := baseUrl config ++ redirectPath (entra config) in
          tokenSet ← await (callback client redirectUri params
            {| code_verifier := codeVerifier txn;
               checks_state := state txn;
               checks_nonce := nonce txn |});
          claims ← await (claims tokenSet);
          if negb (eqStr (get claims (js "nonce")) (nonce txn)) then
            mthrow NonceMismatch
          else
            deleteOidcTransaction;;
            mret (tokenSet, claims, returnTo txn)
  end.

(** [checkGroupMembership(claims, tokenSet)] *)
Definition checkGroupMembership (claims : object) (tokenSet : TokenSet)
  : result bool :=
  let allowedGroupId := allowedGroupId (entra config) in
  if isEmpty allowedGroupId then inr true
  else
    let groups := get claims (js "groups") in
    if truthy groups && isArray groups then
      inr (arrayIncludes groups allowedGroupId)
    else
      let _claim_names := get claims (js "_claim_names") in
      if truthy (and _claim_names (prop _claim_names (js "groups")))
      then inl GroupOverage
      else inl GroupClaimMissing.

(** The object literal both assignments to [req.session.user] of the
    callback route evaluate. *)
Definition userOf (claims : object) (authorized : bool)
    (tokenSet : TokenSet) : User :=
  {| sub := get claims (js "sub");
     email := or (or (get claims (js "email"))
                     (get claims (js "preferred_username")))
                 (get claims (js "upn"));
     name := get claims (js "name");
     authorized := authorized;
     idToken := id_token tokenSet |}.

(** One replacement of [escapeHtml], on one code unit. *)
Definition escapeUnit (c : N) : jsstring :=
  if c =? 38 then js "&amp;"
  else if c =? 60 then js "&lt;"
  else if c =? 62 then js "&gt;"
  else if c =? 34 then js "&quot;"
  else if c =? 39 then js "&#39;"
  else [c].

(** [escapeHtml(str)] *)
Definition escapeHtml (str : jsstring) : jsstring :=
  flat_map escapeUnit str.

(** [req.session.user = u] *)
Definition setUser (u : User) (req : Request) : Request :=
  {| sessionID := sessionID req;
     session := writeUser u (session req);
     query := query req |}.

(** A function that received [req.session] has left it as [session']. *)
Definition withSession (session' : Session) (req : Request) : Request :=
  {| sessionID := sessionID req;
     session := session';
     query := query req |}.

(** [router.get('/login', ...)] *)
Definition loginRoute (drawn : Drawn) (now : Z) (req : Request)
  : Response * Request :=
  let returnTo := or (get (query req) (js "returnTo")) (VStr (js "/chat.html")) in
  match buildAuthorizationUrl drawn now returnTo (session req) with
  | (inr authUrl, session') => (Redirect authUrl, withSession session' req)
  | (inl err, session') => (NextError err, withSession session' req)
  end.

(** The [try] block of the callback route up to the first assignment to
    [req.session.user]. *)
Definition completeLogin (now : Z) (query : object)
  : async (TokenSet * object * jsstring * bool) :=
  (if truthy (get query (js "error")) then
     mthrow (mkError (ToString
       (or (get query (js "error_description")) (get query (js "error")))))
   else mret tt);;
  '(tokenSet, claims, returnTo) ← handleCallback now query;
  authorized ← await (checkGroupMembership claims tokenSet);
  mret (tokenSet, claims, returnTo, authorized).

(** [router.get('/callback', ...)] *)
Definition callbackRoute (now : Z) (req : Request) : Response * Request :=
  match completeLogin now (query req) (session req) with
  | (inr (tokenSet, claims, returnTo, authorized), session') =>
      let req1 := setUser (userOf claims authorized tokenSet)
                    (withSession session' req) in
      let '(err, req2) := regenerate req1 in
      let req3 := setUser (userOf claims authorized tokenSet) req2 in
      let safeReturnTo := validateReturnTo (VStr returnTo) (baseUrl config) in
      (Redirect safeReturnTo, req3)
  | (inl err, session') =>
      (LoginErrorPage 400 (escapeHtml (message err)), withSession session' req)
  end.

End WithPlatform.

End Auth.

(** ** server.js: the proxy routes *)

Module Server.

Import Config.

Abbreviation result A := (Auth.Error + A)%type.

(** *** [Buffer.from(s).toString('base64')] *)

(** The UTF-8 bytes of a string; a surrogate without its partner is
    encoded as U+FFFD. *)
Fixpoint utf8 (s : jsstring) : list N :=
  match s with
  | [] => []
  | c :: t =>
      if c <? 128 then c :: utf8 t
      else if c <? 2048 then (192 + c / 64) :: (128 + c mod 64) :: utf8 t
      else if (55296 <=? c) && (c <=? 56319) then
        match t with
        | d :: t' =>
            if (56320 <=? d) && (d <=? 57343) then
              let cp := 65536 + (c - 55296) * 1024 + (d - 56320) in
              (240 + cp / 262144) :: (128 + (cp / 4096) mod 64)
                :: (128 + (cp / 64) mod 64) :: (128 + cp mod 64) :: utf8 t'
            else 239 :: 191 :: 189 :: utf8 t
        | [] => [239; 191; 189]
        end
      else if (56320 <=? c) && (c <=? 57343) then
        239 :: 191 :: 189 :: utf8 t
      else
        (224 + c / 4096) :: (128 + (c / 64) mod 64) :: (128 + c mod 64)
          :: utf8 t
  end.

Definition base64Digit (i : N) : N :=
  if i <? 26 then 65 + i
  else if i <? 52 then 97 + (i - 26)
  else if i <? 62 then 48 + (i - 52)
  else if i =? 62 then 43
  else 47.

Fixpoint base64 (bytes : list N) : jsstring :=
  match bytes with
  | [] => []
  | [a] => [base64Digit (a / 4); base64Digit (a mod 4 * 16); 61; 61]
  | [a; b] =>
      [base64Digit (a / 4); base64Digit (a mod 4 * 16 + b / 16);
       base64Digit (b mod 16 * 4); 61]
  | a :: b :: c :: rest =>
      base64Digit (a / 4) :: base64Digit (a mod 4 * 16 + b / 16)
        :: base64Digit (b mod 16 * 4 + c / 64) :: base64Digit (c mod 64)
        :: base64 rest
  end.

(** *** Requests and responses *)

(** [contentType] is what [req.get('content-type')] returns, [None] for
    [undefined]; [body] is [req.body]. *)
Record Request := {
  method : jsstring;
  session : option Auth.Session;
  cookies : object;
  contentType : option jsstring;
  body : value
}.

Inductive Payload : Type :=
| Json (v : value)
| Text (s : jsstring).

(** What is on [res] at a call of [res.send] or [res.json]: the status, the
    headers (under their lower-cased names, as [setHeader] files them) and
    the payload.  For a handler it is what its own calls have put there
    and what it hands to Express; Express writes the response to the
    caller from it, see [delivered]. *)
Record Reply := {
  statusCode : Z;
  headers : gmap jsstring jsstring;
  payload : Payload
}.

(** The second argument of [fetch]; [fetchBody] is [None] for
    [undefined]. *)
Record FetchInit := {
  fetchMethod : jsstring;
  fetchHeaders : list (jsstring * jsstring);
  fetchBody : option jsstring
}.

(** The response of [node-fetch]: [responseHeaders] lists the pairs in the
    order in which [headers.forEach] visits them, [text] is what
    [await upstream.text()] settles as. *)
Record FetchResponse := {
  status : Z;
  responseHeaders : list (jsstring * jsstring);
  text : result jsstring
}.

(** What a route did: the call of [fetch] it made, if any, and what it
    handed to [res.send] or [res.json]. *)
Record Exchange := {
  sent : option (jsstring * FetchInit);
  reply : Reply
}.

Inductive Middleware : Type :=
| Next
| Respond (r : Reply).

(** The two paths the proxy is mounted on. *)
Inductive Path : Type :=
| webhook
| webhookTest.

(** [res.status(code).json({ error: text })] *)
Definition jsonError (code : Z) (text : jsstring) : Reply :=
  {| statusCode := code;
     headers := ∅;
     payload := Json (VObj [(js "error", VStr text)]) |}.

Section WithPlatform.

Variable config : Config.

(** [jwt.verify(token, secret)] of [jsonwebtoken] *)
Variable jwt_verify : value -> jsstring -> result value.

(** [await fetch(url, init)] of [node-fetch] *)
Variable fetch : jsstring -> FetchInit -> result FetchResponse.

(** [JSON.stringify(v)] *)
Variable JSON_stringify : value -> jsstring.

(** [k.toLowerCase()] *)
Variable toLowerCase : jsstring -> jsstring.

(** [req.session && req.session.user && req.session.user.authorized] *)
Definition sessionAuthorized (req : Request) : bool :=
  match session req with
  | None => false
  | Some s =>
      match Auth.user s with
      | None => false
      | Some u => Auth.authorized u
      end
  end.

(** The legacy branch of [authenticateProxy]: whether it calls [next]. *)
Definition legacyAdmits (req : Request) : bool :=
  if enablePasswordLogin (legacy config) then
    let token := get (cookies req) (js "session") in
    if truthy token then
      match jwt_verify token (jwtSecret (legacy config)) with
      | inr _ => true
      | inl _ => false
      end
    else false
  else false.

(** [authenticateProxy(req, res, next)] *)
Definition authenticateProxy (req : Request) : Middleware :=
  if sessionAuthorized req then Next
  else if legacyAdmits req then Next
  else Respond (jsonError 401 (js "Not authenticated")).

Definition hopHeaders : list jsstring :=
  [js "transfer-encoding"; js "content-encoding"; js "connection"].

(** [res.setHeader(k, v)] *)
Definition setHeader (k v : jsstring) (hs : gmap jsstring jsstring)
  : gmap jsstring jsstring :=
  <[toLowerCase k := v]> hs.

(** The callback of [upstream.headers.forEach] *)
Definition copyHeader (hs : gmap jsstring jsstring)
    (kv : jsstring * jsstring) : gmap jsstring jsstring :=
  if bool_decide (toLowerCase kv.1 ∈ hopHeaders) then hs
  else setHeader kv.1 kv.2 hs.

Definition copyHeaders (l : list (jsstring * jsstring))
  : gmap jsstring jsstring :=
  foldl copyHeader ∅ l.

(** The object [upstreamHeaders] *)
Definition upstreamHeaders (req : Request) : list (jsstring * jsstring) :=
  let basic :=
    base64 (utf8 (username (n8n config) ++ js ":" ++ password (n8n config))) in
  [(js "Content-Type",
    orStr (default [] (contentType req)) (js "application/json"));
   (js "Authorization", js "Basic " ++ basic)].

(** The argument [init] of the call of [fetch] *)
Definition upstreamInit (req : Request) : FetchInit :=
  let body :=
    if bool_decide (method req ∈ [js "GET"; js "HEAD"]) then None
    else Some (JSON_stringify (or (body req) (VObj []))) in
  {| fetchMethod := method req;
     fetchHeaders := upstreamHeaders req;
     fetchBody := body |}.

(** What the two handlers do once they have a target: they differ in the
    target only.  The reply is [res.status(upstream.status)], the calls of
    [res.setHeader] and the text handed to [res.send]. *)
Definition forward (target : jsstring) (req : Request) : Exchange :=
  let init := upstreamInit req in
  let proxyError := jsonError 500 (js "Proxy error") in
  {| sent := Some (target, init);
     reply :=
       match fetch target init with
       | inl _ => proxyError
       | inr upstream =>
           match text upstream with
           | inl _ => proxyError
           | inr text =>
               {| statusCode := status upstream;
                  headers := copyHeaders (responseHeaders upstream);
                  payload := Text text |}
           end
       end |}.

Definition notConfigured : Exchange :=
  {| sent := None;
     reply := jsonError 500 (js "N8N webhook URL not configured") |}.

(** The handler of [app.all('/proxy/webhook', ...)] *)
Definition webhookHandler (req : Request) : Exchange :=
  if isEmpty (webhookUrl (n8n config)) then notConfigured
  else forward (webhookUrl (n8n config)) req.

(** The handler of [app.all('/proxy/webhook-test', ...)] *)
Definition webhookTestHandler (req : Request) : Exchange :=
  let target := orStr (webhookUrlTest (n8n config)) (webhookUrl (n8n config)) in
  if isEmpty target then notConfigured
  else forward target req.

(** [app.all(path, authenticateProxy, handler)] *)
Definition guarded (handler : Request -> Exchange) (req : Request)
  : Exchange :=
  match authenticateProxy req with
  | Next => handler req
  | Respond r => {| sent := None; reply := r |}
  end.

Definition proxyWebhook : Request -> Exchange := guarded webhookHandler.

Definition proxyWebhookTest : Request -> Exchange :=
  guarded webhookTestHandler.

(** The URL a handler forwards to. *)
Definition targetOf (path : Path) : jsstring :=
  match path with
  | webhook => webhookUrl (n8n config)
  | webhookTest =>
      orStr (webhookUrlTest (n8n config)) (webhookUrl (n8n config))
  end.

Definition handlerOf (path : Path) : Request -> Exchange :=
  match path with
  | webhook => webhookHandler
  | webhookTest => webhookTestHandler
  end.

(** The routing of a request by its path. *)
Definition app (path : Path) : Request -> Exchange :=
  match path with
  | webhook => proxyWebhook
  | webhookTest => proxyWebhookTest
  end.

(** [res.send(body)] of Express, which [res.json(obj)] ends in, for the
    response object of the request at hand.  It writes the response from
    what the handler has put on [res], and rewrites on the way: for a
    string it gives [Content-Type] the charset [utf-8], it sets
    [Content-Length] and, where none is set, [ETag], and it answers 304 to
    a conditional request that it finds fresh. *)
Variable send : Reply -> Reply.

(** The response to the caller. *)
Definition delivered (path : Path) (req : Request) : Reply :=
  send (reply (app path req)).

End WithPlatform.

(** ASCII lower-casing: what [toLowerCase] does on the names of HTTP
    header fields, which are ASCII tokens. *)
Definition asciiLowerCase (s : jsstring) : jsstring :=
  map (fun c => if (65 <=? c) && (c <=? 90) then c + 32 else c) s.

End Server.


(** ** Concrete inputs

    A configuration, a pending transaction and stand-ins for the packages,
    to run the code on. *)

Module Sample.

Import Config Auth.

Definition config : Config :=
  {| baseUrl := js "https://example.com";
     entra :=
       {| tenantId := js "tenant-1";
          clientId := js "client-1";
          clientSecret := js "secret-1";
          redirectPath := js "/auth/callback";
          postLogoutRedirectPath := js "/";
          allowedGroupId := js "group-1" |};
     n8n :=
       {| webhookUrl := js "https://n8n.example.com/webhook/chat";
          webhookUrlTest := [];
          username := js "user";
          password := js "pass" |};
     legacy :=
       {| enablePasswordLogin := false;
          jwtSecret := js "change_this_in_prod" |} |}.

Definition transaction : Transaction :=
  {| state := js "state-1";
     nonce := js "nonce-1";
     codeVerifier := js "verifier-1";
     returnTo := js "/chat.html";
     createdAt := 1000 |}.

(** A session in the middle of a login. *)
Definition pending : Session :=
  {| user := None; oidcTransaction := Some transaction |}.

Definition tokenSetOf (payload : object) : TokenSet :=
  {| claims := inr payload; id_token := VStr (js "id-token-1") |}.

(** A client whose code exchange settles as [exchange]. *)
Definition clientWith (exchange : result TokenSet) : Client :=
  {| authorizationUrl := fun p =>
       js "https://login.example.com/authorize?state=" ++ param_state p;
     callbackParams := fun query => inr (VObj query);
     callback := fun _ _ _ => exchange |}.

(** The payload of an ID token that answers the pending transaction. *)
Definition payload : object :=
  [(js "sub", VStr (js "subject-1"));
   (js "email", VStr (js "ada@example.com"));
   (js "name", VStr (js "Ada"));
   (js "nonce", VStr (js "nonce-1"));
   (js "groups", VArr [VStr (js "group-0"); VStr (js "group-1")])].

(** The query of the callback that answers the pending transaction. *)
Definition callbackQuery : object :=
  [(js "code", VStr (js "code-1")); (js "state", VStr (js "state-1"))].

(** A regeneration that hands out the old identifier with a plus sign and
    an empty session. *)
Definition regenerate (req : Request) : option Error * Request :=
  (None,
   {| sessionID := sessionID req ++ js "+";
      session := {| user := None; oidcTransaction := None |};
      query := query req |}).

Definition ToString (v : value) : jsstring :=
  match v with VStr s => s | _ => js "[object Object]" end.

Definition codeChallenge (verifier : jsstring) : jsstring :=
  js "challenge-of-" ++ verifier.

(** What the login that opened the pending transaction drew. *)
Definition drawn : Drawn :=
  {| drawnState := js "state-1";
     drawnNonce := js "nonce-1";
     drawnCodeVerifier := js "verifier-1" |}.

(** The request that opens the login. *)
Definition loginRequest : Request :=
  {| sessionID := js "sid-1";
     session := {| user := None; oidcTransaction := None |};
     query := [(js "returnTo", VStr (js "/chat.html"))] |}.

(** The request that brings the answer of the provider. *)
Definition callbackRequest : Request :=
  {| sessionID := js "sid-1";
     session := pending;
     query := callbackQuery |}.

(** The provider client, with a code exchange that succeeds. *)
Definition oidc : result Client :=
  inr (clientWith (inr (tokenSetOf payload))).

(** The configuration with the legacy password login switched on. *)
Definition legacyConfig : Config :=
  {| baseUrl := baseUrl config;
     entra := entra config;
     n8n := n8n config;
     legacy :=
       {| enablePasswordLogin := true;
          jwtSecret := js "change_this_in_prod" |} |}.

(** The configuration with no webhook URL. *)
Definition unconfigured : Config :=
  {| baseUrl := baseUrl config;
     entra := entra config;
     n8n :=
       {| webhookUrl := [];
          webhookUrlTest := [];
          username := js "user";
          password := js "pass" |};
     legacy := legacy config |}.

(** A verification that accepts one token. *)
Definition jwt_verify (token : value) (secret : jsstring) : result value :=
  if eqStr token (js "token-1") && bool_decide (secret = js "change_this_in_prod")
  then inr (VObj [(js "sub", VStr (js "user"))])
  else inl (mkError (js "invalid token")).

(** An upstream that answers every request alike. *)
Definition fetch (url : jsstring) (init : Server.FetchInit)
  : result Server.FetchResponse :=
  inr {| Server.status := 201;
         Server.responseHeaders :=
           [(js "content-type", js "text/plain");
            (js "Transfer-Encoding", js "chunked");
            (js "x-request-id", js "request-1")];
         Server.text := inr (js "done") |}.

(** An Express whose [res.send] does to [Content-Type] what Express does
    to a media type without parameters: it adds the charset, [text/html]
    or, for [res.json], [application/json] standing in where the handler
    set no type.  The rest is left as the handler put it. *)
Definition send (r : Server.Reply) : Server.Reply :=
  let type :=
    match Server.headers r !! js "content-type", Server.payload r with
    | Some type, _ => type
    | None, Server.Text _ => js "text/html"
    | None, Server.Json _ => js "application/json"
    end in
  {| Server.statusCode := Server.statusCode r;
     Server.headers :=
       <[js "content-type" := type ++ js "; charset=utf-8"]>
         (Server.headers r);
     Server.payload := Server.payload r |}.

(** A serialisation that knows the empty object. *)
Definition JSON_stringify (v : value) : jsstring :=
  match v with
  | VObj [] => js "{}"
  | _ => js "{...}"
  end.

(** A user the group check has turned down. *)
Definition denied : User :=
  userOf payload false (tokenSetOf payload).

(** A chat message, from a browser without a session. *)
Definition anonymous : Server.Request :=
  {| Server.method := js "POST";
     Server.session := None;
     Server.cookies := [];
     Server.contentType := Some (js "application/json");
     Server.body := VObj [(js "chatInput", VStr (js "hello"))] |}.

(** The same message, from a user of the allowed group. *)
Definition member : Server.Request :=
  {| Server.method := js "POST";
     Server.session :=
       Some {| user := Some (userOf payload true (tokenSetOf payload));
               oidcTransaction := None |};
     Server.cookies := [];
     Server.contentType := Some (js "application/json");
     Server.body := VObj [(js "chatInput", VStr (js "hello"))] |}.

(** The same message, with the cookie of the legacy login, on the session
    of a user the group check has turned down. *)
Definition legacyRequest : Server.Request :=
  {| Server.method := js "POST";
     Server.session :=
       Some {| user := Some denied; oidcTransaction := None |};
     Server.cookies := [(js "session", VStr (js "token-1"))];
     Server.contentType := Some (js "application/json");
     Server.body := VObj [(js "chatInput", VStr (js "hello"))] |}.

End Sample.

(** ** More operations on strings *)

Module Text.

(** [s.replace(/c/g, by)] for a pattern of one unit [c]: each of the five
    replacements of [escapeHtml] is one. *)
Definition replaceUnit (c : N) (by_ : jsstring) (s : jsstring) : jsstring :=
  flat_map (fun x => if x =? c then by_ else [x]) s.

(** [parts.join(sep)] *)
Fixpoint join (sep : jsstring) (parts : list jsstring) : jsstring :=
  match parts with
  | [] => []
  | [p] => p
  | p :: rest => p ++ sep ++ join sep rest
  end.

End Text.

(** ** lib/config.js: loading the settings *)

Module Env.

Import Config Auth.

Definition requiredInProduction : list jsstring :=
  [js "SESSION_SECRET"; js "REDIS_URL"; js "ENTRA_TENANT_ID";
   js "ENTRA_CLIENT_ID"; js "ENTRA_CLIENT_SECRET";
   js "ENTRA_ALLOWED_GROUP_ID"; js "BASE_URL"].

Definition requiredAlways : list jsstring := [].

(** [config.session] *)
Record SessionSettings := {
  secret : jsstring;
  cookieSecure : bool;
  cookieSameSite : jsstring;
  redisUrl : option jsstring
}.

(** The object [loadConfig] returns; [settings] holds the properties the
    routes of the first part read. *)
Record Loaded := {
  port : Z;
  nodeEnv : jsstring;
  isProduction : bool;
  sessionSettings : SessionSettings;
  settings : Config
}.

Section WithPlatform.

(** [process.env]: the variables that are set, with their values. *)
Variable env : gmap jsstring jsstring.

(** [parseInt(v, 10)], [None] for [NaN] *)
Variable parseInt10 : option jsstring -> option Z.

(** [String(n)] for the number of the port *)
Variable numberToString : Z -> jsstring.

(** [v.toLowerCase()] *)
Variable toLowerCase : jsstring -> jsstring.

(** [!process.env[key]] *)
Definition unset (key : jsstring) : bool :=
  match env !! key with
  | Some (_ :: _) => false
  | _ => true
  end.

(** [process.env[key] || fallback] *)
Definition envOr (key fallback : jsstring) : jsstring :=
  orStr (default [] (env !! key)) fallback.

(** The local function [parseBool] *)
Definition parseBool (v : option jsstring) (defaultValue : bool) : bool :=
  match v with
  | None | Some [] => defaultValue
  | Some s => bool_decide (s = js "true") || bool_decide (s = js "1")
  end.

(** The local function [parseSameSite] *)
Definition parseSameSite (v : option jsstring) : jsstring :=
  let valid := [js "lax"; js "strict"; js "none"] in
  let lower := toLowerCase (orStr (default [] v) (js "lax")) in
  if bool_decide (lower ∈ valid) then lower else js "lax".

(** The list [missing], once the two loops have run. *)
Definition missingOf (isProduction : bool) : list jsstring :=
  filter (fun key => unset key = true) requiredAlways
  ++ (if isProduction
      then filter (fun key => unset key = true) requiredInProduction
      else []).

(** [parseInt(process.env.PORT, 10) || 3000] *)
Definition portOf : Z :=
  match parseInt10 (env !! js "PORT") with
  | Some n => if (n =? 0)%Z then 3000%Z else n
  | None => 3000%Z
  end.

(** [loadConfig()] *)
Definition loadConfig : result Loaded :=
  let nodeEnv := envOr (js "NODE_ENV") (js "development") in
  let isProduction := bool_decide (nodeEnv = js "production") in
  let missing := missingOf isProduction in
  let message :=
    js "Missing required environment variables: " ++ Text.join (js ", ") missing in
  if (0 <? length missing)%nat && isProduction then inl (mkError message)
  else
    inr {| port := portOf;
           nodeEnv := nodeEnv;
           isProduction := isProduction;
           sessionSettings :=
             {| secret :=
                  envOr (js "SESSION_SECRET")
                    (js "dev-session-secret-change-in-production");
                cookieSecure :=
                  parseBool (env !! js "SESSION_COOKIE_SECURE") isProduction;
                cookieSameSite :=
                  parseSameSite (env !! js "SESSION_COOKIE_SAMESITE");
                redisUrl :=
                  match env !! js "REDIS_URL" with
                  | Some (c :: s) => Some (c :: s)
                  | _ => None
                  end |};
           settings :=
             {| baseUrl :=
                  envOr (js "BASE_URL")
                    (js "http://localhost:" ++ numberToString portOf);
                entra :=
                  {| tenantId := envOr (js "ENTRA_TENANT_ID") [];
                     clientId := envOr (js "ENTRA_CLIENT_ID") [];
                     clientSecret := envOr (js "ENTRA_CLIENT_SECRET") [];
                     redirectPath :=
                       envOr (js "ENTRA_REDIRECT_PATH") (js "/auth/callback");
                     postLogoutRedirectPath :=
                       envOr (js "ENTRA_POST_LOGOUT_REDIRECT_PATH") (js "/");
                     allowedGroupId :=
                       envOr (js "ENTRA_ALLOWED_GROUP_ID") [] |};
                n8n :=
                  {| webhookUrl := envOr (js "N8N_WEBHOOK_URL") [];
                     webhookUrlTest := envOr (js "N8N_WEBHOOK_URL_TEST") [];
                     username := envOr (js "N8N_USERNAME") [];
                     password := envOr (js "N8N_PASSWORD") [] |};
                legacy :=
                  {| enablePasswordLogin :=
                       parseBool (env !! js "ENABLE_LEGACY_PASSWORD_LOGIN")
                         false;
                     jwtSecret :=
                       envOr (js "JWT_SECRET") (js "change_this_in_prod") |}
             |} |}.

End WithPlatform.

End Env.

(** ** lib/session.js: the session store *)

Module Store.

Import Config Auth.

(** The option [reconnectStrategy]: the error that ends the attempts, or
    the delay before the next one. *)
Definition reconnectStrategy (retries : Z) : Error + Z :=
  if (retries >? 10)%Z
  then inl (mkError (js "Redis max reconnection attempts reached"))
  else inr (Z.min (retries * 100) 3000).

Record CookieOptions := {
  httpOnly : bool;
  secure : bool;
  sameSite : jsstring;
  maxAge : Z
}.

(** The options of [new RedisStore]. *)
Record RedisStore := {
  prefix : jsstring;
  ttl : Z
}.

(** The object [sessionConfig]; without a [store], [express-session] keeps
    the sessions in memory. *)
Record SessionOptions := {
  name : jsstring;
  secret : jsstring;
  resave : bool;
  saveUninitialized : bool;
  rolling : bool;
  cookie : CookieOptions;
  store : option RedisStore
}.

(** What the [try] block meets: [loaded] is the outcome of the two
    [require] calls and of [createClient], [connected] the one of
    [await redisClient.connect()], [stored] the one of
    [new RedisStore]. *)
Record Redis := {
  loaded : result unit;
  connected : result unit;
  stored : result unit
}.

(** The module variables: whether [redisClient] and [redisStore] are
    set. *)
Record Variables := {
  redisClient : bool;
  redisStore : bool
}.

Definition productionNeedsRedis : Error :=
  mkError (js "Redis connection required in production. Set REDIS_URL environment variable.").

(** [createSessionMiddleware()]: the options handed to [session], and the
    module variables it leaves. *)
Definition createSessionMiddleware (config : Env.Loaded) (redis : Redis)
  : result SessionOptions * Variables :=
  let sessionConfig (store : option RedisStore) :=
    {| name := js "connect.sid";
       secret := Env.secret (Env.sessionSettings config);
       resave := false;
       saveUninitialized := false;
       rolling := true;
       cookie :=
         {| httpOnly := true;
            secure := Env.cookieSecure (Env.sessionSettings config);
            sameSite := Env.cookieSameSite (Env.sessionSettings config);
            maxAge := 24 * 60 * 60 * 1000 |};
       store := store |} in
  match Env.redisUrl (Env.sessionSettings config) with
  | Some (_ :: _) =>
      let attempt : result unit * bool :=
        match loaded redis with
        | inl err => (inl err, false)
        | inr _ =>
            match connected redis with
            | inl err => (inl err, true)
            | inr _ =>
                match stored redis with
                | inl err => (inl err, true)
                | inr _ => (inr tt, true)
                end
            end
        end in
      match attempt with
      | (inr _, client) =>
          (inr (sessionConfig
                  (Some {| prefix := js "broenlab:sess:"; ttl := 86400 |})),
           {| redisClient := client; redisStore := true |})
      | (inl _, client) =>
          if Env.isProduction config then
            (inl productionNeedsRedis,
             {| redisClient := client; redisStore := false |})
          else
            (inr (sessionConfig None),
             {| redisClient := client; redisStore := false |})
      end
  | _ =>
      (inr (sessionConfig None),
       {| redisClient := false; redisStore := false |})
  end.

(** [checkRedisHealth()]; [ping] is what [await redisClient.ping()]
    settles as. *)
Definition checkRedisHealth (config : Env.Loaded) (vars : Variables)
    (ping : result unit) : bool :=
  if negb (redisClient vars) then
    match Env.redisUrl (Env.sessionSettings config) with
    | Some (_ :: _) => false
    | _ => true
    end
  else
    match ping with
    | inr _ => true
    | inl _ => false
    end.

End Store.

(** ** lib/auth.js: the provider client, the guards, the status route *)

Module Guards.

Import Config Auth.

(** The metadata handed to [new oidcIssuer.Client]. *)
Record ClientMetadata := {
  client_id : jsstring;
  client_secret : jsstring;
  redirect_uris : list jsstring;
  response_types : list jsstring;
  token_endpoint_auth_method : jsstring
}.

Definition NotConfigured : Error :=
  mkError (js "Entra OIDC not configured. Set ENTRA_TENANT_ID, ENTRA_CLIENT_ID, and ENTRA_CLIENT_SECRET.").

(** What a call of [getOidcClient] leaves: what the promise settles as,
    the module variable [oidcClient], and the issuer URLs it handed to
    [Issuer.discover]. *)
Record Settled := {
  outcome : result Client;
  cached : option Client;
  discovered : list jsstring
}.

(** [getOidcClient()].  [discover] is [Issuer.discover]; what it resolves
    to is used through the constructor [oidcIssuer.Client] only. *)
Definition getOidcClient (config : Config)
    (discover : jsstring -> result (ClientMetadata -> Client))
    (oidcClient : option Client) : Settled :=
  match oidcClient with
  | Some client =>
      {| outcome := inr client; cached := oidcClient; discovered := [] |}
  | None =>
      let tenantId := tenantId (entra config) in
      let clientId := clientId (entra config) in
      let clientSecret := clientSecret (entra config) in
      if isEmpty tenantId || isEmpty clientId || isEmpty clientSecret then
        {| outcome := inl NotConfigured; cached := None; discovered := [] |}
      else
        let issuerUrl :=
          js "https://login.microsoftonline.com/" ++ tenantId ++ js "/v2.0" in
        match discover issuerUrl with
        | inl err =>
            {| outcome := inl err; cached := None;
               discovered := [issuerUrl] |}
        | inr newClient =>
            let client :=
              newClient
                {| client_id := clientId;
                   client_secret := clientSecret;
                   redirect_uris :=
                     [baseUrl config ++ redirectPath (entra config)];
                   response_types := [js "code"];
                   token_endpoint_auth_method := js "client_secret_post" |} in
            {| outcome := inr client; cached := Some client;
               discovered := [issuerUrl] |}
        end
  end.

(** The chain of replacements of [escapeHtml], in the order of the
    source. *)
Definition escapeHtmlChain (str : jsstring) : jsstring :=
  if isEmpty str then []
  else
    Text.replaceUnit 39 (js "&#39;")
      (Text.replaceUnit 34 (js "&quot;")
         (Text.replaceUnit 62 (js "&gt;")
            (Text.replaceUnit 60 (js "&lt;")
               (Text.replaceUnit 38 (js "&amp;") str)))).

(** What the guards and the page routes read of a request; [render] tells
    whether [res.status(403).render] is defined. *)
Record Request := {
  session : option Session;
  originalUrl : jsstring;
  url : jsstring;
  xhr : bool;
  accept : option jsstring;
  render : bool
}.

Inductive Outcome : Type :=
| Next
| Json (status : Z) (body : value)
| AccessDeniedPage (status : Z)
| Redirect (location : jsstring)
| SendFile (file : jsstring)
| Throws (err : Error).

(** [req.session && req.session.user] *)
Definition sessionUser (req : Request) : option User :=
  match session req with
  | Some s => user s
  | None => None
  end.

Section WithEncoder.

(** [encodeURIComponent(s)], which throws on a lone surrogate *)
Variable encodeURIComponent : jsstring -> result jsstring.

(** [requireAuth(req, res, next)] *)
Definition requireAuth (req : Request) : Outcome :=
  match sessionUser req with
  | Some _ => Next
  | None =>
      let returnTo := orStr (originalUrl req) (url req) in
      if xhr req
         || match accept req with
            | Some a => negb (isEmpty a) && includes a (js "application/json")
            | None => false
            end
      then Json 401 (VObj [(js "error", VStr (js "Not authenticated"))])
      else
        match encodeURIComponent returnTo with
        | inl err => Throws err
        | inr encoded => Redirect (js "/auth/login?returnTo=" ++ encoded)
        end
  end.

(** [requireGroup(req, res, next)] *)
Definition requireGroup (req : Request) : Outcome :=
  match sessionUser req with
  | None => Json 401 (VObj [(js "error", VStr (js "Not authenticated"))])
  | Some u =>
      if negb (authorized u) then
        if render req then AccessDeniedPage 403
        else Json 403
               (VObj [(js "error",
                       VStr (js "Access denied. Not in allowed group."))])
      else Next
  end.

(** [app.get('/chat.html', ...)] of [server.js], in its two
    registrations: the route, which a request reaches when the middleware
    mounted before it has called [next()], see [getChatHtml]. *)
Definition chatPage (config : Config) (req : Request) : Outcome :=
  let page := SendFile (js "chat.html") in
  if negb (isEmpty (tenantId (entra config)))
     && negb (isEmpty (clientId (entra config)))
  then
    match requireAuth req with
    | Next =>
        match requireGroup req with
        | Next => page
        | answer => answer
        end
    | answer => answer
    end
  else page.

(** [express.static(path.join(__dirname), { index: false })], which
    [server.js] mounts before the page routes: what it does with a [GET]
    for a path.  It sends the file the path names in the directory of
    [server.js], and calls [next()], here [Next], when there is none. *)
Variable static : jsstring -> Outcome.


(** [app.get('/', ...)] of [server.js] *)
Definition rootPage (req : Request) : Outcome :=
  match sessionUser req with
  | Some u =>
      if authorized u then Redirect (js "/chat.html")
      else SendFile (js "index.html")
  | None => SendFile (js "index.html")
  end.

End WithEncoder.

(** [router.get('/status', ...)]: the object handed to [res.json] *)
Definition statusRoute (req : Request) : value :=
  match sessionUser req with
  | Some u =>
      VObj [(js "authenticated", VBool true);
            (js "user",
             VObj [(js "email", email u);
                   (js "name", Auth.name u);
                   (js "authorized", VBool (authorized u))])]
  | None => VObj [(js "authenticated", VBool false)]
  end.

End Guards.

(** ** server.js: the health routes and the legacy login *)

Module Routes.

Import Config Auth.

(** [app.get('/readyz', ...)]: the status it answers with *)
Definition readyz (config : Env.Loaded) (vars : Store.Variables)
    (ping : result unit) : Z :=
  if Store.checkRedisHealth config vars ping then 200%Z else 503%Z.

(** What the route [POST /login] reads of a request: [forwardedProto] is
    [req.headers['x-forwarded-proto']]. *)
Record LoginRequest := {
  body : value;
  secure : bool;
  forwardedProto : option jsstring
}.

(** The arguments of [res.cookie]. *)
Record Cookie := {
  cookieName : jsstring;
  cookieValue : jsstring;
  cookieHttpOnly : bool;
  cookieSecure : bool;
  cookieSameSite : jsstring;
  cookieMaxAge : Z
}.

Inductive LoginOutcome : Type :=
| LoggedIn (cookie : Cookie) (answer : value)
| Refused (status : Z) (answer : value)
| LoginThrows (err : Error).

Section WithJwt.

Variable config : Env.Loaded.

(** [jwt.sign(payload, secret, { expiresIn: '2h' })] *)
Variable jwt_sign : value -> jsstring -> result jsstring.

(** [app.post('/login', ...)], registered when the legacy login is
    enabled *)
Definition legacyLogin (req : LoginRequest) : LoginOutcome :=
  let credentials := or (body req) (VObj []) in
  let username := prop credentials (js "username") in
  let password := prop credentials (js "password") in
  if eqStr username (Config.username (n8n (Env.settings config)))
     && eqStr password (Config.password (n8n (Env.settings config)))
  then
    match jwt_sign (VObj [(js "sub", username)])
            (jwtSecret (legacy (Env.settings config))) with
    | inl err => LoginThrows err
    | inr token =>
        let isSecure :=
          Env.isProduction config || secure req
          || bool_decide (forwardedProto req = Some (js "https")) in
        LoggedIn
          {| cookieName := js "session";
             cookieValue := token;
             cookieHttpOnly := true;
             cookieSecure := isSecure;
             cookieSameSite := js "lax";
             cookieMaxAge := 2 * 60 * 60 * 1000 |}
          (VObj [(js "ok", VBool true)])
    end
  else
    Refused 401
      (VObj [(js "ok", VBool false);
             (js "error", VStr (js "Invalid credentials"))]).

End WithJwt.

End Routes.

(** ** api/webhook.js and api/webhook/index.js: the serverless relay *)

Module Api.

Import Config Auth.

(** The second argument of [fetch]. *)
Record Init := {
  initMethod : jsstring;
  initHeaders : list (jsstring * jsstring);
  initBody : option jsstring
}.

(** The response of [fetch]: [json] is what [await response.json()]
    settles as. *)
Record Upstream := {
  upstreamStatus : Z;
  json : result value
}.

(** [context.res] *)
Record Res := {
  status : Z;
  body : value;
  headers : list (jsstring * jsstring)
}.

(** What a run did: the calls of [fetch], and [context.res]. *)
Record Run := {
  calls : list (option jsstring * Init);
  res : Res
}.

Section WithPlatform.

(** [process.env.N8N_WEBHOOK_URL] *)
Variable webhookUrl : option jsstring.

(** [await fetch(url, init)], on a URL that may be [undefined] *)
Variable fetch : option jsstring -> Init -> result Upstream.

(** [JSON.stringify(v)], [None] for [undefined] *)
Variable JSON_stringify : value -> option jsstring.

(** The [try] statement the two files share. *)
Definition relay (reqBody : value) : Run :=
  let init :=
    {| initMethod := js "POST";
       initHeaders := [(js "Content-Type", js "application/json")];
       initBody := JSON_stringify reqBody |} in
  let failed (err : Error) :=
    {| status := 500;
       body := VObj [(js "error", VStr (message err))];
       headers := [] |} in
  {| calls := [(webhookUrl, init)];
     res :=
       match fetch webhookUrl init with
       | inl err => failed err
       | inr response =>
           match json response with
           | inl err => failed err
           | inr data =>
               {| status := upstreamStatus response;
                  body := data;
                  headers := [(js "Content-Type", js "application/json")] |}
           end
       end |}.

(** The function of [api/webhook.js] *)
Definition webhook (reqBody : value) : Run := relay reqBody.

(** The function of [api/webhook/index.js] *)
Definition webhookIndex (reqBody : value) : Run :=
  match webhookUrl with
  | Some (_ :: _) => relay reqBody
  | _ =>
      {| calls := [];
         res :=
           {| status := 500;
              body :=
                VObj [(js "error",
                       VStr (js "N8N_WEBHOOK_URL not configured"))];
              headers := [] |} |}
  end.

End WithPlatform.

End Api.

(** ** More concrete inputs *)

Module Fixture.

Import Config Auth.

(** A production environment with every required variable. *)
Definition production : gmap jsstring jsstring :=
  list_to_map
    [(js "NODE_ENV", js "production");
     (js "SESSION_SECRET", js "session-secret-1");
     (js "REDIS_URL", js "redis://cache.example.com:6379");
     (js "ENTRA_TENANT_ID", js "tenant-1");
     (js "ENTRA_CLIENT_ID", js "client-1");
     (js "ENTRA_CLIENT_SECRET", js "secret-1");
     (js "ENTRA_ALLOWED_GROUP_ID", js "group-1");
     (js "BASE_URL", js "https://example.com");
     (js "SESSION_COOKIE_SAMESITE", js "Strict")].

(** The same without the Redis URL. *)
Definition incomplete : gmap jsstring jsstring :=
  delete (js "REDIS_URL") production.

(** A development environment with the legacy login switched on. *)
Definition development : gmap jsstring jsstring :=
  list_to_map
    [(js "ENABLE_LEGACY_PASSWORD_LOGIN", js "1");
     (js "N8N_USERNAME", js "user");
     (js "N8N_PASSWORD", js "pass")].

Definition parseInt10 (v : option jsstring) : option Z :=
  match v with
  | Some s => if bool_decide (s = js "8080") then Some 8080%Z else None
  | None => None
  end.

Definition numberToString (n : Z) : jsstring :=
  if (n =? 3000)%Z then js "3000" else js "8080".

(** A signature that [Sample.jwt_verify] accepts. *)
Definition jwt_sign (payload : value) (secret : jsstring) : result jsstring :=
  inr (js "token-1").

Definition encodeURIComponent (s : jsstring) : result jsstring :=
  inr (Text.replaceUnit 47 (js "%2F") s).

(** A discovery that succeeds, with a client that keeps the identifier it
    was built with in its authorization URL. *)
Definition discover (issuerUrl : jsstring)
  : result (Guards.ClientMetadata -> Client) :=
  inr (fun metadata =>
         {| authorizationUrl := fun p =>
              issuerUrl ++ js "/authorize?client_id="
              ++ Guards.client_id metadata;
            callbackParams := fun query => inr (VObj query);
            callback := fun _ _ _ =>
              inr (Sample.tokenSetOf Sample.payload) |}).

(** A browser navigation without a session. *)
Definition visitor : Guards.Request :=
  {| Guards.session := None;
     Guards.originalUrl := js "/chat.html";
     Guards.url := js "/chat.html";
     Guards.xhr := false;
     Guards.accept := Some (js "text/html");
     Guards.render := true |}.

(** The same navigation on the session of a user. *)
Definition visit (u : User) : Guards.Request :=
  {| Guards.session := Some {| user := Some u; oidcTransaction := None |};
     Guards.originalUrl := js "/chat.html";
     Guards.url := js "/chat.html";
     Guards.xhr := false;
     Guards.accept := Some (js "text/html");
     Guards.render := true |}.

Definition allowed : User :=
  userOf Sample.payload true (Sample.tokenSetOf Sample.payload).


(** The same over a directory without the pages. *)
Definition bare (path : jsstring) : Guards.Outcome := Guards.Next.

End Fixture.

(** * Properties *)

Import Config Auth.

(** Literals are turned into their code units before a proof looks at
    them. *)
Ltac literals :=
  repeat match goal with
  | |- context [js ?s] =>
      let v := eval vm_compute in (js s) in change (js s) with v
  | H : context [js ?s] |- _ =>
      let v := eval vm_compute in (js s) in change (js s) with v in H
  end.

(** ** Strings *)

Lemma isWhiteSpace_dot : isWhiteSpace 46 = false.
Proof. reflexivity. Qed.

Lemma isWhiteSpace_slash : isWhiteSpace 47 = false.
Proof. reflexivity. Qed.

Lemma startsWith_one (s : jsstring) (c : N) :
  startsWith s [c] = true <-> exists t, s = c :: t.
Proof.
  split.
  - destruct s as [|a t]; cbn; [discriminate|].
    rewrite andb_true_r. intros ->%N.eqb_eq. eauto.
  - intros [t ->]. cbn. by rewrite N.eqb_refl.
Qed.

Lemma startsWith_two (s : jsstring) (c d : N) :
  startsWith s [c; d] = true <-> exists t, s = c :: d :: t.
Proof.
  split.
  - destruct s as [|a [|b t]]; cbn; try discriminate.
    + rewrite andb_false_r. discriminate.
    + rewrite andb_true_r. intros [Ha Hb]%andb_prop.
      apply N.eqb_eq in Ha, Hb. subst. eauto.
  - intros [t ->]. cbn. by rewrite !N.eqb_refl.
Qed.

Lemma includes_cons (c : N) (s p : jsstring) :
  includes s p = true -> includes (c :: s) p = true.
Proof. intros H. cbn [includes]. rewrite H. apply orb_true_r. Qed.

Lemma trimEnd_keeps (c : N) (t : jsstring) :
  isWhiteSpace c = false -> trimEnd (c :: t) = c :: trimEnd t.
Proof. intros H. cbn [trimEnd]. rewrite H. by destruct (trimEnd t). Qed.

Lemma trimEnd_cons_nonempty (c : N) (t : jsstring) :
  trimEnd t <> [] -> trimEnd (c :: t) = c :: trimEnd t.
Proof. intros H. cbn [trimEnd]. by destruct (trimEnd t). Qed.

(** Two dots survive the removal of leading white space. *)
Lemma includes_dots_trimStart (s : jsstring) :
  includes s (js "..") = true -> includes (trimStart s) (js "..") = true.
Proof.
  literals. induction s as [|c t IH]; [done|].
  cbn [trimStart]. destruct (isWhiteSpace c) eqn:Hc; [|done].
  cbn [includes]. intros [H|H]%orb_prop; [|by apply IH].
  apply startsWith_two in H as [t' [= -> _]].
  by rewrite isWhiteSpace_dot in Hc.
Qed.

(** Two dots survive the removal of trailing white space. *)
Lemma includes_dots_trimEnd (s : jsstring) :
  includes s (js "..") = true -> includes (trimEnd s) (js "..") = true.
Proof.
  literals. induction s as [|c t IH]; [done|].
  cbn [includes]. intros [H|H]%orb_prop.
  - apply startsWith_two in H as [t' [= -> ->]].
    rewrite !trimEnd_keeps by apply isWhiteSpace_dot. reflexivity.
  - specialize (IH H).
    rewrite trimEnd_cons_nonempty.
    + by apply includes_cons.
    + intros E. rewrite E in IH. discriminate.
Qed.

Lemma includes_dots_trim (s : jsstring) :
  includes s (js "..") = true -> includes (trim s) (js "..") = true.
Proof. intros H. by apply includes_dots_trimEnd, includes_dots_trimStart. Qed.

(** Two dots survive the collapse of the runs of slashes. *)
Lemma includes_dots_collapseSlashes (s : jsstring) :
  includes s (js "..") = true ->
  includes (collapseSlashes s) (js "..") = true.
Proof.
  literals. induction s as [|c t IH]; [done|].
  cbn [includes]. intros [H|H]%orb_prop.
  - apply startsWith_two in H as [t' [= -> ->]]. reflexivity.
  - cbn [collapseSlashes].
    destruct ((c =? 47) && _); [by apply IH|].
    by apply includes_cons, IH.
Qed.

(** A string that starts with two slashes still does once trimmed. *)
Lemma startsWith_slashes_trim (s : jsstring) :
  startsWith s (js "//") = true -> startsWith (trim s) (js "//") = true.
Proof.
  literals. intros [t ->]%startsWith_two.
  unfold trim. cbn [trimStart]. rewrite isWhiteSpace_slash.
  rewrite !trimEnd_keeps by apply isWhiteSpace_slash. reflexivity.
Qed.

Lemma startsWith_slashes_slash (s : jsstring) :
  startsWith s (js "//") = true -> startsWith s (js "/") = true.
Proof.
  literals. intros [t ->]%startsWith_two. reflexivity.
Qed.

Example isWhiteSpace_units :
  map isWhiteSpace [9; 13; 14; 32; 160; 8202; 8203; 65279]
  = [true; true; false; true; true; true; false; true].
Proof. reflexivity. Qed.

Example trim_both_ends : trim (js "  /chat.html ") = js "/chat.html".
Proof. reflexivity. Qed.

Example trim_inner : trim (js " a b ") = js "a b".
Proof. reflexivity. Qed.

Example collapseSlashes_runs :
  collapseSlashes (js "/a//b///c/") = js "/a/b/c/".
Proof. reflexivity. Qed.

Example includes_dots : includes (js "/a..b") (js "..") = true.
Proof. reflexivity. Qed.

(** ** The reference parser *)

Lemma sampleOf_requires_scheme (host s : jsstring) :
  s = [] \/ startsWith s (js "/") = true -> sampleOf host s = None.
Proof.
  intros [->|H]; [done|].
  literals. by apply startsWith_one in H as [t ->].
Qed.

Lemma sample_requires_scheme : requires_scheme sample.
Proof.
  intros s H. unfold sample. by rewrite !sampleOf_requires_scheme.
Qed.

(** ** Return-path validation *)

Section ValidateReturnTo.

Variable new_URL : parser.

(** When the relative-path branch does not return, the answer is the one
    of the same-origin branch. *)
Lemma validateReturnTo_not_relative (c : N) (s baseUrl : jsstring) :
  (startsWith (trim (c :: s)) (js "/") = true ->
   startsWith (trim (c :: s)) (js "//") = false ->
   includes (collapseSlashes (trim (c :: s))) (js "..") = true) ->
  validateReturnTo new_URL (VStr (c :: s)) baseUrl
  = match new_URL (trim (c :: s)), new_URL baseUrl with
    | Some url, Some base =>
        if bool_decide (origin url = origin base)
        then pathname url ++ search url ++ hash url
        else js "/"
    | _, _ => js "/"
    end.
Proof.
  intros H. unfold validateReturnTo.
  set (trimmed := trim (c :: s)) in *.
  assert (Hrel :
    (if startsWith trimmed (js "/") && negb (startsWith trimmed (js "//"))
     then
       if negb (includes (collapseSlashes trimmed) (js ".."))
          && negb (includes (collapseSlashes trimmed) backslash)
       then Some (collapseSlashes trimmed) else None
     else None) = None).
  { destruct (startsWith trimmed (js "/")) eqn:H1; [|done].
    destruct (startsWith trimmed (js "//")) eqn:H2; [done|].
    cbn [andb negb]. by rewrite H. }
  rewrite Hrel.
  destruct (new_URL trimmed) as [url|]; [|done].
  destruct (new_URL baseUrl) as [base|]; done.
Qed.

End ValidateReturnTo.

Example validateReturnTo_relative :
  validateReturnTo sample (VStr (js " /chat.html?tab=1 "))
    (js "https://example.com") = js "/chat.html?tab=1".
Proof. reflexivity. Qed.

Example validateReturnTo_collapses :
  validateReturnTo sample (VStr (js "/a///b")) (js "https://example.com")
  = js "/a/b".
Proof. reflexivity. Qed.

Example validateReturnTo_protocol_relative :
  validateReturnTo sample (VStr (js "//app.example.org/x"))
    (js "https://example.com") = js "/".
Proof. reflexivity. Qed.

Example validateReturnTo_traversal :
  validateReturnTo sample (VStr (js "/a/../b")) (js "https://example.com")
  = js "/".
Proof. reflexivity. Qed.

Example validateReturnTo_backslash :
  validateReturnTo sample (VStr (js "/a" ++ backslash ++ js "b"))
    (js "https://example.com") = js "/".
Proof. reflexivity. Qed.

Example validateReturnTo_other_origin :
  validateReturnTo sample (VStr (js "https://app.example.org/x"))
    (js "https://example.com") = js "/".
Proof. reflexivity. Qed.

Example validateReturnTo_not_a_string :
  validateReturnTo sample (VArr [VStr (js "/a"); VStr (js "/b")])
    (js "https://example.com") = js "/".
Proof. reflexivity. Qed.

(** C1 (as amended).  An input string that starts with [//], or that
    contains [..] and is not an absolute URL of the origin of the base URL,
    is answered [/].  The parser is any function that, like the WHATWG
    parser without a base, rejects what has no scheme. *)
Theorem validateReturnTo_rejects
    (new_URL : parser) (returnTo baseUrl : jsstring) :
  requires_scheme new_URL ->
  startsWith returnTo (js "//") = true \/
  (includes returnTo (js "..") = true /\
   sameOrigin new_URL (trim returnTo) baseUrl = false) ->
  validateReturnTo new_URL (VStr returnTo) baseUrl = js "/".
Proof.
  intros Hscheme H.
  assert (exists c s, returnTo = c :: s) as (c & s & ->).
  { destruct returnTo; [|eauto]. by destruct H as [H|[H _]]. }
  rewrite validateReturnTo_not_relative.
  - destruct H as [H|[_ H]].
    + rewrite Hscheme; [done|]. right.
      by apply startsWith_slashes_slash, startsWith_slashes_trim.
    + unfold sameOrigin in H.
      destruct (new_URL (trim (c :: s))) as [url|]; [|done].
      destruct (new_URL baseUrl) as [base|]; [|done].
      by rewrite H.
  - intros _ Hnot. destruct H as [H|[H _]].
    + apply startsWith_slashes_trim in H. congruence.
    + by apply includes_dots_collapseSlashes, includes_dots_trim.
Qed.

Lemma validateReturnTo_rejects_witness :
  requires_scheme sample /\
  (startsWith (js "https://app.example.org/a..b") (js "//") = true \/
   (includes (js "https://app.example.org/a..b") (js "..") = true /\
    sameOrigin sample (trim (js "https://app.example.org/a..b"))
      (js "https://example.com") = false)) /\
  validateReturnTo sample (VStr (js "https://app.example.org/a..b"))
    (js "https://example.com") = js "/".
Proof.
  assert (H : startsWith (js "https://app.example.org/a..b") (js "//") = true \/
   (includes (js "https://app.example.org/a..b") (js "..") = true /\
    sameOrigin sample (trim (js "https://app.example.org/a..b"))
      (js "https://example.com") = false)).
  { right. split; vm_compute; reflexivity. }
  split; [exact sample_requires_scheme|].
  split; [exact H|].
  exact (validateReturnTo_rejects sample _ _ sample_requires_scheme H).
Defined.

(** C1, as the specification states it, fails: an absolute URL of the
    origin of the base URL that contains [..] is answered with its path. *)
Lemma validateReturnTo_dots_counterexample :
  ~ (includes (js "https://example.com/a..b") (js "..") = true \/
     startsWith (js "https://example.com/a..b") (js "//") = true ->
     validateReturnTo sample (VStr (js "https://example.com/a..b"))
       (js "https://example.com") = js "/").
Proof.
  intros H.
  assert (E : validateReturnTo sample (VStr (js "https://example.com/a..b"))
                (js "https://example.com") = js "/a..b")
    by (vm_compute; reflexivity).
  rewrite E in H. discriminate H. left. vm_compute. reflexivity.
Qed.

(** C2.  When the trimmed input parses to a URL whose origin is the origin
    of the base URL, the validator returns the path, query and fragment of
    that URL, joined. *)
Theorem validateReturnTo_same_origin
    (new_URL : parser) (returnTo baseUrl : jsstring) (url base : URL) :
  requires_scheme new_URL ->
  new_URL (trim returnTo) = Some url ->
  new_URL baseUrl = Some base ->
  origin url = origin base ->
  validateReturnTo new_URL (VStr returnTo) baseUrl
  = pathname url ++ search url ++ hash url.
Proof.
  intros Hscheme Hurl Hbase Horigin.
  destruct returnTo as [|c s].
  { rewrite Hscheme in Hurl; [done|by left]. }
  rewrite validateReturnTo_not_relative.
  - rewrite Hurl, Hbase. by rewrite bool_decide_eq_true_2.
  - intros Hslash _. rewrite Hscheme in Hurl; [done|by right].
Qed.

Lemma validateReturnTo_same_origin_witness :
  validateReturnTo sample (VStr (js " https://example.com/chat.html "))
    (js "https://example.com") = js "/chat.html".
Proof.
  exact (validateReturnTo_same_origin sample
           (js " https://example.com/chat.html ") (js "https://example.com")
           (mkURL (js "https://example.com") (js "/chat.html") [] [])
           (mkURL (js "https://example.com") (js "/") [] [])
           sample_requires_scheme eq_refl eq_refl eq_refl).
Defined.

(** ** The OIDC transaction *)

(** Runs a computation on a session as far as its tests allow. *)
Ltac run :=
  unfold mbind, mret, mthrow, async_bind, async_ret, async_throw, await,
    readOidcTransaction, deleteOidcTransaction, writeOidcTransaction;
  cbn beta iota.

Lemma eqStr_false (v : value) (s : jsstring) :
  eqStr v s = false <-> v <> VStr s.
Proof.
  destruct v; cbn; try (split; [discriminate|done]).
  rewrite bool_decide_eq_false. split; [congruence|].
  intros H ->. by apply H.
Qed.

Lemma eqStr_true (v : value) (s : jsstring) :
  eqStr v s = true <-> v = VStr s.
Proof.
  destruct v; cbn; try (split; [discriminate|done]).
  rewrite bool_decide_eq_true. split; congruence.
Qed.

Section HandleCallback.

Variable config : Config.
Variable client : Client.
Variable now : Z.
Variable query : object.
Variable session : Session.
Variable txn : Transaction.
Hypothesis pending : oidcTransaction session = Some txn.

Lemma handleCallback_expired_eq :
  (now - createdAt txn > TRANSACTION_TTL)%Z ->
  handleCallback config (inr client) now query session
  = (inl TransactionExpired,
     {| user := user session; oidcTransaction := None |}).
Proof.
  intros H. unfold handleCallback. run. rewrite pending.
  destruct (Z.gtb_spec (now - createdAt txn) TRANSACTION_TTL); [done|lia].
Qed.

Lemma handleCallback_state_eq :
  (now - createdAt txn <= TRANSACTION_TTL)%Z ->
  get query (js "state") <> VStr (state txn) ->
  handleCallback config (inr client) now query session
  = (inl StateMismatch,
     {| user := user session; oidcTransaction := None |}).
Proof.
  intros H Hstate%eqStr_false. unfold handleCallback. run. rewrite pending.
  destruct (Z.gtb_spec (now - createdAt txn) TRANSACTION_TTL); [lia|].
  by rewrite Hstate.
Qed.

(** Past the two checks the session is written once, on the path that
    returns: every failure of the exchange, and a nonce that differs,
    leave the session as it was. *)
Lemma handleCallback_exchange_eq :
  (now - createdAt txn <= TRANSACTION_TTL)%Z ->
  get query (js "state") = VStr (state txn) ->
  handleCallback config (inr client) now query session
  = match callbackParams client query with
    | inl err => (inl err, session)
    | inr params =>
        match callback client (baseUrl config ++ redirectPath (entra config))
                params
                {| code_verifier := codeVerifier txn;
                   checks_state := state txn;
                   checks_nonce := nonce txn |} with
        | inl err => (inl err, session)
        | inr tokenSet =>
            match claims tokenSet with
            | inl err => (inl err, session)
            | inr payload =>
                if eqStr (get payload (js "nonce")) (nonce txn)
                then (inr (tokenSet, payload, returnTo txn),
                      {| user := user session; oidcTransaction := None |})
                else (inl NonceMismatch, session)
            end
        end
    end.
Proof.
  intros H Hstate%eqStr_true. unfold handleCallback. run. rewrite pending.
  destruct (Z.gtb_spec (now - createdAt txn) TRANSACTION_TTL); [lia|].
  rewrite Hstate. cbn [negb].
  destruct (callbackParams client query) as [err|params]; [done|].
  destruct (callback client _ params _) as [err|tokenSet]; [done|].
  destruct (claims tokenSet) as [err|payload]; [done|].
  by destruct (eqStr (get payload (js "nonce")) (nonce txn)).
Qed.

End HandleCallback.

(** C3, at an input on which the code departs from it.  The session is in
    the middle of a login, the callback carries the right [state], and the
    ID token that comes back carries another nonce: [handleCallback] throws
    the nonce error and the transaction is still on the session. *)
Theorem handleCallback_nonce_mismatch_keeps_transaction :
  handleCallback Sample.config
    (inr (Sample.clientWith
            (inr (Sample.tokenSetOf [(js "nonce", VStr (js "nonce-2"))]))))
    2000 Sample.callbackQuery Sample.pending
  = (inl NonceMismatch, Sample.pending)
  /\ oidcTransaction Sample.pending = Some Sample.transaction.
Proof. split; vm_compute; reflexivity. Qed.

(** The same when the code exchange itself fails. *)
Example handleCallback_failed_exchange_keeps_transaction :
  handleCallback Sample.config
    (inr (Sample.clientWith (inl (mkError (js "invalid_grant")))))
    2000 Sample.callbackQuery Sample.pending
  = (inl (mkError (js "invalid_grant")), Sample.pending).
Proof. vm_compute. reflexivity. Qed.

(** C4 (as amended).  When [getOidcClient] has resolved to a client, a
    callback on a transaction older than five minutes throws the expiry
    error, and the transaction is gone from the session. *)
Theorem handleCallback_expired
    (config : Config) (client : Client) (now : Z) (query : object)
    (session : Session) (txn : Transaction) :
  oidcTransaction session = Some txn ->
  (now - createdAt txn > 5 * 60 * 1000)%Z ->
  (handleCallback config (inr client) now query session).1
    = inl TransactionExpired
  /\ oidcTransaction (handleCallback config (inr client) now query session).2
    = None.
Proof.
  intros Hpending Hold.
  by rewrite (handleCallback_expired_eq _ _ _ _ _ _ Hpending Hold).
Qed.

Lemma handleCallback_expired_witness :
  (handleCallback Sample.config
     (inr (Sample.clientWith (inr (Sample.tokenSetOf Sample.payload))))
     301001 Sample.callbackQuery Sample.pending).1
    = inl TransactionExpired
  /\ oidcTransaction
       (handleCallback Sample.config
          (inr (Sample.clientWith (inr (Sample.tokenSetOf Sample.payload))))
          301001 Sample.callbackQuery Sample.pending).2
    = None.
Proof.
  apply (handleCallback_expired Sample.config _ 301001 _ Sample.pending
           Sample.transaction).
  - reflexivity.
  - vm_compute. reflexivity.
Defined.

(** C4, as the specification states it, fails: [handleCallback] awaits
    [getOidcClient] before it reads the session, and when that rejects,
    here because the discovery failed, a callback on a transaction older
    than five minutes throws the error of the provider client and the
    transaction stays on the session. *)
Lemma handleCallback_expired_counterexample :
  ~ (oidcTransaction Sample.pending = Some Sample.transaction ->
     (301001 - createdAt Sample.transaction > 5 * 60 * 1000)%Z ->
     (handleCallback Sample.config (inl (mkError (js "discovery failed")))
        301001 Sample.callbackQuery Sample.pending).1
       = inl TransactionExpired
     /\ oidcTransaction
          (handleCallback Sample.config
             (inl (mkError (js "discovery failed")))
             301001 Sample.callbackQuery Sample.pending).2
       = None).
Proof.
  intros H. destruct H as [H _].
  - reflexivity.
  - vm_compute. reflexivity.
  - vm_compute in H. discriminate H.
Qed.

(** C5 (as amended).  When [getOidcClient] has resolved to a client, a
    callback on a transaction that is not older than five minutes, whose
    [state] is not the stored one, throws the state error, and the
    transaction is gone from the session. *)
Theorem handleCallback_state_mismatch
    (config : Config) (client : Client) (now : Z) (query : object)
    (session : Session) (txn : Transaction) :
  oidcTransaction session = Some txn ->
  (now - createdAt txn <= 5 * 60 * 1000)%Z ->
  get query (js "state") <> VStr (state txn) ->
  (handleCallback config (inr client) now query session).1
    = inl StateMismatch
  /\ oidcTransaction (handleCallback config (inr client) now query session).2
    = None.
Proof.
  intros Hpending Hlive Hstate.
  by rewrite (handleCallback_state_eq _ _ _ _ _ _ Hpending Hlive Hstate).
Qed.

Lemma handleCallback_state_mismatch_witness :
  (handleCallback Sample.config
     (inr (Sample.clientWith (inr (Sample.tokenSetOf Sample.payload))))
     2000 [(js "state", VStr (js "state-0"))] Sample.pending).1
    = inl StateMismatch
  /\ oidcTransaction
       (handleCallback Sample.config
          (inr (Sample.clientWith (inr (Sample.tokenSetOf Sample.payload))))
          2000 [(js "state", VStr (js "state-0"))] Sample.pending).2
    = None.
Proof.
  apply (handleCallback_state_mismatch Sample.config _ 2000 _ Sample.pending
           Sample.transaction).
  - reflexivity.
  - vm_compute. discriminate.
  - vm_compute. discriminate.
Defined.

(** C5, as the specification states it, fails: on a transaction that is
    older than five minutes the expiry check comes first, and a callback
    with another [state] is answered with the expiry error. *)
Lemma handleCallback_state_mismatch_counterexample :
  ~ (get [(js "state", VStr (js "state-0"))] (js "state")
       <> VStr (state Sample.transaction) ->
     (handleCallback Sample.config
        (inr (Sample.clientWith (inr (Sample.tokenSetOf Sample.payload))))
        301001 [(js "state", VStr (js "state-0"))] Sample.pending).1
       = inl StateMismatch
     /\ oidcTransaction
          (handleCallback Sample.config
             (inr (Sample.clientWith (inr (Sample.tokenSetOf Sample.payload))))
             301001 [(js "state", VStr (js "state-0"))] Sample.pending).2
       = None).
Proof.
  intros H. destruct H as [H _].
  - vm_compute. discriminate.
  - vm_compute in H. discriminate H.
Qed.

(** ** The group check *)

Lemma arrayIncludes_In (items : list value) (s : jsstring) :
  arrayIncludes (VArr items) s = true <-> In (VStr s) items.
Proof.
  cbn. rewrite existsb_exists. split.
  - intros (item & Hin & ->%eqStr_true). exact Hin.
  - intros Hin. exists (VStr s). split; [exact Hin|]. by apply eqStr_true.
Qed.

Lemma isArray_items (v : value) :
  truthy v && isArray v = true <-> exists items, v = VArr items.
Proof.
  split.
  - destruct v; cbn; rewrite ?andb_false_r; try discriminate. eauto.
  - by intros [items ->].
Qed.

(** A value that is falsy has no truthy property: the test of the overage
    branch is the truthiness of [_claim_names.groups]. *)
Lemma truthy_and_prop (v : value) (name : jsstring) :
  truthy (and v (prop v name)) = truthy (prop v name).
Proof.
  unfold and. destruct (truthy v) eqn:E; [done|].
  by destruct v.
Qed.

(** C7.  With an allowed group configured, [checkGroupMembership] returns
    [true] exactly when the claims carry a [groups] array that contains the
    configured identifier; when they carry no [groups] array and no truthy
    [_claim_names.groups], it throws the error of the missing group
    claim. *)
Theorem checkGroupMembership_groups
    (config : Config) (payload : object) (tokenSet : TokenSet) :
  allowedGroupId (entra config) <> [] ->
  (checkGroupMembership config payload tokenSet = inr true <->
   exists items,
     get payload (js "groups") = VArr items /\
     In (VStr (allowedGroupId (entra config))) items)
  /\
  ((forall items, get payload (js "groups") <> VArr items) ->
   truthy (prop (get payload (js "_claim_names")) (js "groups")) = false ->
   checkGroupMembership config payload tokenSet = inl GroupClaimMissing).
Proof.
  intros Hid. unfold checkGroupMembership.
  destruct (allowedGroupId (entra config)) as [|c id] eqn:E; [done|].
  cbn [isEmpty]. rewrite truthy_and_prop.
  destruct (truthy (get payload (js "groups")) && isArray (get payload (js "groups")))
    eqn:Harr.
  - apply isArray_items in Harr as [items Hitems]. rewrite Hitems. split.
    + split.
      * intros [= H]. exists items. split; [done|]. by apply arrayIncludes_In.
      * intros (items' & [= <-] & Hin). f_equal. by apply arrayIncludes_In.
    + intros Hnone. by destruct (Hnone items).
  - split.
    + split.
      * by destruct (truthy (prop _ _)).
      * intros (items & Hitems & _).
        assert (truthy (get payload (js "groups"))
                && isArray (get payload (js "groups")) = true)
          by (apply isArray_items; eauto).
        congruence.
    + intros _ ->. reflexivity.
Qed.

Lemma checkGroupMembership_groups_witness :
  checkGroupMembership Sample.config Sample.payload
    (Sample.tokenSetOf Sample.payload) = inr true
  /\ checkGroupMembership Sample.config [(js "sub", VStr (js "subject-1"))]
       (Sample.tokenSetOf Sample.payload) = inl GroupClaimMissing.
Proof.
  assert (Hid : allowedGroupId (entra Sample.config) <> [])
    by (vm_compute; discriminate).
  split.
  - apply (checkGroupMembership_groups Sample.config Sample.payload
             (Sample.tokenSetOf Sample.payload) Hid).
    exists [VStr (js "group-0"); VStr (js "group-1")].
    split; [reflexivity|]. right. left. reflexivity.
  - apply (checkGroupMembership_groups Sample.config
             [(js "sub", VStr (js "subject-1"))]
             (Sample.tokenSetOf Sample.payload) Hid).
    + intros items. vm_compute. discriminate.
    + reflexivity.
Defined.

(** ** The login and callback routes *)

(** The login route leaves the identifier of the session alone. *)
Lemma loginRoute_sessionID
    (config : Config) (new_URL : parser) (oidc : result Client)
    (codeChallenge : jsstring -> jsstring) (drawn : Drawn) (now : Z)
    (req : Request) :
  sessionID (loginRoute config new_URL oidc codeChallenge drawn now req).2
  = sessionID req.
Proof.
  unfold loginRoute.
  by destruct (buildAuthorizationUrl _ _ _ _ _ _ _ _) as [[err|url] session'].
Qed.

(** What [completeLogin] returns is what [handleCallback] validated and
    what [checkGroupMembership] decided. *)
Lemma completeLogin_returns
    (config : Config) (oidc : result Client) (ToString : value -> jsstring)
    (now : Z) (query : object) (session session' : Session)
    (tokenSet : TokenSet) (payload : object) (returnTo : jsstring)
    (authorized : bool) :
  completeLogin config oidc ToString now query session
    = (inr (tokenSet, payload, returnTo, authorized), session') ->
  truthy (get query (js "error")) = false
  /\ handleCallback config oidc now query session
     = (inr (tokenSet, payload, returnTo), session')
  /\ checkGroupMembership config payload tokenSet = inr authorized.
Proof.
  unfold completeLogin. run.
  destruct (truthy (get query (js "error"))); [discriminate|].
  destruct (handleCallback config oidc now query session)
    as [[err|[[tokenSet' payload'] returnTo']] session'']; [discriminate|].
  destruct (checkGroupMembership config payload' tokenSet')
    as [err|authorized'] eqn:Hgroup; [discriminate|].
  intros [= -> -> -> -> ->]. by rewrite Hgroup.
Qed.

(** The callback route answers with a redirect only when the login
    completed; it has then regenerated the session and written the user on
    the session it found afterwards. *)
Lemma callbackRoute_redirects
    (config : Config) (new_URL : parser) (oidc : result Client)
    (ToString : value -> jsstring)
    (regenerate : Request -> option Error * Request)
    (now : Z) (req after : Request) (location : jsstring) :
  callbackRoute config new_URL oidc ToString regenerate now req
    = (Redirect location, after) ->
  exists tokenSet payload returnTo authorized session',
    completeLogin config oidc ToString now (query req) (session req)
      = (inr (tokenSet, payload, returnTo, authorized), session')
    /\ location = validateReturnTo new_URL (VStr returnTo) (baseUrl config)
    /\ after = setUser (userOf payload authorized tokenSet)
                 (regenerate
                    (setUser (userOf payload authorized tokenSet)
                       (withSession session' req))).2.
Proof.
  unfold callbackRoute.
  destruct (completeLogin _ _ _ _ _ _)
    as [[err|[[[tokenSet payload] returnTo] authorized]] session'];
    [discriminate|].
  destruct (regenerate _) as [err handed] eqn:E.
  intros H. cbv beta iota in H. injection H as <- <-.
  exists tokenSet, payload, returnTo, authorized, session'.
  by rewrite E.
Qed.

(** A login with [returnTo=/chat.html] leaves the pending transaction on
    the session and redirects to the provider. *)
Example loginRoute_sample :
  loginRoute Sample.config sample Sample.oidc Sample.codeChallenge
    Sample.drawn 1000 Sample.loginRequest
  = (Redirect (js "https://login.example.com/authorize?state=state-1"),
     {| sessionID := js "sid-1";
        session := Sample.pending;
        query := [(js "returnTo", VStr (js "/chat.html"))] |}).
Proof. reflexivity. Qed.

(** The callback that answers it, with a token of the allowed group,
    redirects to [/chat.html]; the session has a new identifier, carries an
    authorized user and no transaction. *)
Example callbackRoute_sample :
  callbackRoute Sample.config sample Sample.oidc Sample.ToString
    Sample.regenerate 2000 Sample.callbackRequest
  = (Redirect (js "/chat.html"),
     {| sessionID := js "sid-1+";
        session :=
          {| user :=
               Some {| sub := VStr (js "subject-1");
                       email := VStr (js "ada@example.com");
                       name := VStr (js "Ada");
                       authorized := true;
                       idToken := VStr (js "id-token-1") |};
             oidcTransaction := None |};
        query := Sample.callbackQuery |}).
Proof. reflexivity. Qed.

(** An error reported by the provider ends on the error page, with the
    message escaped, and leaves the session alone. *)
Example callbackRoute_provider_error :
  callbackRoute Sample.config sample Sample.oidc Sample.ToString
    Sample.regenerate 2000
    {| sessionID := js "sid-1";
       session := Sample.pending;
       query := [(js "error", VStr (js "access_denied"));
                 (js "error_description", VStr (js "<b>denied</b>"))] |}
  = (LoginErrorPage 400 (js "&lt;b&gt;denied&lt;/b&gt;"),
     {| sessionID := js "sid-1";
        session := Sample.pending;
        query := [(js "error", VStr (js "access_denied"));
                  (js "error_description", VStr (js "<b>denied</b>"))] |}).
Proof. reflexivity. Qed.

Lemma regenerate_sample_fresh (req : Request) :
  sessionID (Sample.regenerate req).2 <> sessionID req.
Proof.
  cbn. intros H%(f_equal length). rewrite length_app in H.
  literals. cbn in H. lia.
Qed.

(** C6.  The callback arrives on the session identifier that the login
    left, and [express-session] regenerates to an identifier other than the
    current one.  If the callback route answers with the redirect of a
    completed login, then the identifier of the session is no longer the
    one it had before the login began, and the user record on the
    regenerated session is the one written before the regeneration, built
    from the claims [handleCallback] validated. *)
Theorem callbackRoute_regenerates
    (config : Config) (new_URL : parser) (oidc : result Client)
    (codeChallenge : jsstring -> jsstring) (ToString : value -> jsstring)
    (regenerate : Request -> option Error * Request)
    (drawn : Drawn) (began now : Z) (before req after : Request)
    (location : jsstring) :
  (forall r, sessionID (regenerate r).2 <> sessionID r) ->
  sessionID req
    = sessionID
        (loginRoute config new_URL oidc codeChallenge drawn began before).2 ->
  callbackRoute config new_URL oidc ToString regenerate now req
    = (Redirect location, after) ->
  sessionID after <> sessionID before
  /\ exists tokenSet payload returnTo authorized session',
       handleCallback config oidc now (query req) (session req)
         = (inr (tokenSet, payload, returnTo), session')
       /\ checkGroupMembership config payload tokenSet = inr authorized
       /\ user (session
                  (setUser (userOf payload authorized tokenSet)
                     (withSession session' req)))
          = Some (userOf payload authorized tokenSet)
       /\ after = setUser (userOf payload authorized tokenSet)
                    (regenerate
                       (setUser (userOf payload authorized tokenSet)
                          (withSession session' req))).2
       /\ user (session after) = Some (userOf payload authorized tokenSet).
Proof.
  intros Hfresh Hsame Hroute.
  apply callbackRoute_redirects in Hroute
    as (tokenSet & payload & returnTo & authorized & session' & Hlogin & _ & ->).
  apply completeLogin_returns in Hlogin as (_ & Hcallback & Hgroup).
  split.
  - rewrite loginRoute_sessionID in Hsame. rewrite <- Hsame.
    exact (Hfresh (setUser (userOf payload authorized tokenSet)
                     (withSession session' req))).
  - exists tokenSet, payload, returnTo, authorized, session'.
    repeat split; assumption || reflexivity.
Qed.

Lemma callbackRoute_regenerates_witness :
  sessionID
    (callbackRoute Sample.config sample Sample.oidc Sample.ToString
       Sample.regenerate 2000 Sample.callbackRequest).2
    <> sessionID Sample.loginRequest
  /\ user (session
       (callbackRoute Sample.config sample Sample.oidc Sample.ToString
          Sample.regenerate 2000 Sample.callbackRequest).2)
     = Some (userOf Sample.payload true (Sample.tokenSetOf Sample.payload)).
Proof.
  destruct (callbackRoute_regenerates Sample.config sample Sample.oidc
              Sample.codeChallenge Sample.ToString Sample.regenerate
              Sample.drawn 1000 2000 Sample.loginRequest
              Sample.callbackRequest
              (callbackRoute Sample.config sample Sample.oidc Sample.ToString
                 Sample.regenerate 2000 Sample.callbackRequest).2
              (js "/chat.html")
              regenerate_sample_fresh eq_refl eq_refl)
    as (Hid & tokenSet & payload & returnTo & authorized & session'
        & _ & _ & _ & _ & _).
  split; [exact Hid|]. vm_compute. reflexivity.
Defined.

(** ** The proxy routes *)

Example base64_credentials :
  Server.base64 (Server.utf8 (js "user:pass")) = js "dXNlcjpwYXNz".
Proof. reflexivity. Qed.

Example base64_padding :
  map (fun s => Server.base64 (Server.utf8 (js s))) ["a"; "ab"; "abc"]%string
  = [js "YQ=="; js "YWI="; js "YWJj"].
Proof. reflexivity. Qed.

(** Code units beyond ASCII: U+00E9, U+20AC and the pair of U+1F600. *)
Example base64_unicode :
  Server.base64 (Server.utf8 [233; 8364; 55357; 56832]) = js "w6nigqzwn5iA".
Proof. reflexivity. Qed.

Section Proxy.

Import Server.

Variable config : Config.
Variable jwt_verify : value -> jsstring -> result value.
Variable fetch : jsstring -> FetchInit -> result FetchResponse.
Variable JSON_stringify : value -> jsstring.
Variable toLowerCase : jsstring -> jsstring.

(** *** The copy of the upstream headers *)

Lemma copyHeader_hop (hs : gmap jsstring jsstring)
    (kv : jsstring * jsstring) (name : jsstring) :
  name ∈ hopHeaders ->
  copyHeader toLowerCase hs kv !! name = hs !! name.
Proof.
  intros Hhop. unfold copyHeader, setHeader. case_bool_decide; [done|].
  apply lookup_insert_ne. congruence.
Qed.

Lemma copyHeader_other (hs : gmap jsstring jsstring)
    (kv : jsstring * jsstring) (name : jsstring) :
  toLowerCase kv.1 <> name ->
  copyHeader toLowerCase hs kv !! name = hs !! name.
Proof.
  intros Hne. unfold copyHeader, setHeader. case_bool_decide; [done|].
  by apply lookup_insert_ne.
Qed.

Lemma copyHeader_sets (hs : gmap jsstring jsstring) (k v : jsstring) :
  toLowerCase k ∉ hopHeaders ->
  copyHeader toLowerCase hs (k, v) !! toLowerCase k = Some v.
Proof.
  intros Hne. unfold copyHeader, setHeader. cbn [fst snd].
  rewrite bool_decide_eq_false_2 by done. apply lookup_insert_eq.
Qed.

(** A hop-by-hop name is never set. *)
Lemma foldl_copyHeader_hop (l : list (jsstring * jsstring))
    (hs : gmap jsstring jsstring) (name : jsstring) :
  name ∈ hopHeaders ->
  foldl (copyHeader toLowerCase) hs l !! name = hs !! name.
Proof.
  intros Hhop. revert hs.
  induction l as [|kv l IH]; intros hs; [done|].
  cbn [foldl]. by rewrite IH, copyHeader_hop.
Qed.

(** A name none of the pairs carries is left as it was. *)
Lemma foldl_copyHeader_other (l : list (jsstring * jsstring))
    (hs : gmap jsstring jsstring) (name : jsstring) :
  (forall kv, kv ∈ l -> toLowerCase kv.1 <> name) ->
  foldl (copyHeader toLowerCase) hs l !! name = hs !! name.
Proof.
  revert hs. induction l as [|kv l IH]; intros hs Hl; [done|].
  cbn [foldl]. rewrite IH.
  - apply copyHeader_other, Hl. by left.
  - intros kv' Hin. apply Hl. by right.
Qed.

(** Whatever is set comes from a pair of the list. *)
Lemma foldl_copyHeader_from (l : list (jsstring * jsstring))
    (hs : gmap jsstring jsstring) (name v : jsstring) :
  foldl (copyHeader toLowerCase) hs l !! name = Some v ->
  hs !! name = Some v \/ exists k, (k, v) ∈ l /\ toLowerCase k = name.
Proof.
  revert hs. induction l as [|[k' v'] l IH]; intros hs; [by left|].
  cbn [foldl]. intros [H|(k & Hin & Hk)]%IH.
  - unfold copyHeader, setHeader in H. cbn [fst snd] in H.
    case_bool_decide; [by left|].
    destruct (decide (toLowerCase k' = name)) as [<-|Hne].
    + rewrite lookup_insert_eq in H. injection H as ->.
      right. exists k'. split; [by left|done].
    + rewrite lookup_insert_ne in H by done. by left.
  - right. exists k. split; [by right|done].
Qed.

(** The last pair of a name that is not hop-by-hop sets the header. *)
Lemma copyHeaders_last (before after : list (jsstring * jsstring))
    (k v : jsstring) :
  toLowerCase k ∉ hopHeaders ->
  (forall kv, kv ∈ after -> toLowerCase kv.1 <> toLowerCase k) ->
  copyHeaders toLowerCase (before ++ (k, v) :: after) !! toLowerCase k
  = Some v.
Proof.
  intros Hhop Hafter. unfold copyHeaders. rewrite foldl_app. cbn [foldl].
  rewrite foldl_copyHeader_other by done. by apply copyHeader_sets.
Qed.

(** *** Admission *)

Lemma sessionAuthorized_true (req : Request) :
  sessionAuthorized req = true <->
  exists s u,
    session req = Some s /\ Auth.user s = Some u /\ authorized u = true.
Proof.
  unfold sessionAuthorized. split.
  - destruct (session req) as [s|]; [|done].
    destruct (Auth.user s) as [u|] eqn:Hu; [|done]. eauto 6.
  - by intros (s & u & -> & -> & ->).
Qed.

Lemma legacyAdmits_true (req : Request) :
  legacyAdmits config jwt_verify req = true <->
  enablePasswordLogin (legacy config) = true
  /\ truthy (get (cookies req) (js "session")) = true
  /\ exists payload,
       jwt_verify (get (cookies req) (js "session"))
         (jwtSecret (legacy config)) = inr payload.
Proof.
  unfold legacyAdmits. split.
  - destruct (enablePasswordLogin _); [|done].
    destruct (truthy _); [|done].
    destruct (jwt_verify _ _) as [err|payload]; [done|eauto].
  - by intros (-> & -> & payload & ->).
Qed.

Lemma authenticateProxy_next (req : Request) :
  authenticateProxy config jwt_verify req = Next <->
  sessionAuthorized req = true \/ legacyAdmits config jwt_verify req = true.
Proof.
  unfold authenticateProxy.
  destruct (sessionAuthorized req); [by split; [left|]|].
  destruct (legacyAdmits config jwt_verify req); [by split; [right|]|].
  split; [done|by intros [|]].
Qed.

End Proxy.

(** C8.  A request to [/proxy/webhook] that carries neither a session of an
    authorized user nor, with the legacy login enabled, a [session] cookie
    that verifies, is answered 401 with the body
    [{ error: 'Not authenticated' }] and nothing is fetched; a request that
    carries one of the two, when no webhook URL is configured, is answered
    500 and nothing is fetched. *)
Theorem proxyWebhook_guards
    (config : Config)
    (jwt_verify : value -> jsstring -> result value)
    (fetch : jsstring -> Server.FetchInit -> result Server.FetchResponse)
    (JSON_stringify : value -> jsstring)
    (toLowerCase : jsstring -> jsstring)
    (req : Server.Request) :
  (~ (exists s u,
        Server.session req = Some s /\ user s = Some u
        /\ authorized u = true) ->
   ~ (enablePasswordLogin (legacy config) = true
      /\ truthy (get (Server.cookies req) (js "session")) = true
      /\ exists payload,
           jwt_verify (get (Server.cookies req) (js "session"))
             (jwtSecret (legacy config)) = inr payload) ->
   Server.proxyWebhook config jwt_verify fetch JSON_stringify toLowerCase req
   = {| Server.sent := None;
        Server.reply :=
          {| Server.statusCode := 401;
             Server.headers := ∅;
             Server.payload :=
               Server.Json
                 (VObj [(js "error", VStr (js "Not authenticated"))]) |} |})
  /\
  ((exists s u,
      Server.session req = Some s /\ user s = Some u
      /\ authorized u = true)
   \/ (enablePasswordLogin (legacy config) = true
       /\ truthy (get (Server.cookies req) (js "session")) = true
       /\ exists payload,
            jwt_verify (get (Server.cookies req) (js "session"))
              (jwtSecret (legacy config)) = inr payload) ->
   webhookUrl (n8n config) = [] ->
   Server.sent
     (Server.proxyWebhook config jwt_verify fetch JSON_stringify toLowerCase
        req) = None
   /\ Server.statusCode
        (Server.reply
           (Server.proxyWebhook config jwt_verify fetch JSON_stringify
              toLowerCase req)) = 500%Z).
Proof.
  unfold Server.proxyWebhook, Server.guarded. split.
  - intros Hsession Hlegacy.
    rewrite <- sessionAuthorized_true in Hsession.
    rewrite <- (legacyAdmits_true config jwt_verify) in Hlegacy.
    unfold Server.authenticateProxy.
    destruct (Server.sessionAuthorized req); [done|].
    by destruct (Server.legacyAdmits config jwt_verify req).
  - intros Hauth Hurl.
    rewrite <- sessionAuthorized_true in Hauth.
    rewrite <- (legacyAdmits_true config jwt_verify) in Hauth.
    apply authenticateProxy_next in Hauth. rewrite Hauth.
    unfold Server.webhookHandler. by rewrite Hurl.
Qed.

Lemma proxyWebhook_guards_witness :
  Server.proxyWebhook Sample.config Sample.jwt_verify Sample.fetch
    Sample.JSON_stringify Server.asciiLowerCase Sample.anonymous
  = {| Server.sent := None;
       Server.reply :=
         {| Server.statusCode := 401;
            Server.headers := ∅;
            Server.payload :=
              Server.Json
                (VObj [(js "error", VStr (js "Not authenticated"))]) |} |}
  /\ Server.statusCode
       (Server.reply
          (Server.proxyWebhook Sample.unconfigured Sample.jwt_verify
             Sample.fetch Sample.JSON_stringify Server.asciiLowerCase
             Sample.member)) = 500%Z.
Proof.
  split.
  - apply (proxyWebhook_guards Sample.config Sample.jwt_verify Sample.fetch
             Sample.JSON_stringify Server.asciiLowerCase Sample.anonymous).
    + intros (s & u & H & _). discriminate H.
    + intros (H & _). discriminate H.
  - apply (proxyWebhook_guards Sample.unconfigured Sample.jwt_verify
             Sample.fetch Sample.JSON_stringify Server.asciiLowerCase
             Sample.member).
    + left. eexists _, _. repeat split; reflexivity.
    + reflexivity.
Defined.

(** C9 (as amended).  A request that [authenticateProxy] lets through, on
    either path, with a target configured: [fetch] is called once, on the
    target, with the method of the request, with an [Authorization] header
    that is [Basic] and the base64 of [username:password], and with no
    body for [GET] and [HEAD] and the serialisation of [req.body || {}]
    otherwise; when [fetch] and [upstream.text()] resolve, the response to
    the caller is what [res.send] of Express makes of what the handler
    hands to it, and that is: the status of the upstream, its text, none
    of the three hop-by-hop headers, no header the upstream did not send,
    and every other header of the upstream, the last pair of a name giving
    the value. *)
Theorem proxy_forwards
    (config : Config)
    (jwt_verify : value -> jsstring -> result value)
    (fetch : jsstring -> Server.FetchInit -> result Server.FetchResponse)
    (JSON_stringify : value -> jsstring)
    (toLowerCase : jsstring -> jsstring)
    (send : Server.Reply -> Server.Reply)
    (path : Server.Path) (req : Server.Request) :
  Server.authenticateProxy config jwt_verify req = Server.Next ->
  Server.targetOf config path <> [] ->
  exists init,
    Server.sent
      (Server.app config jwt_verify fetch JSON_stringify toLowerCase path req)
    = Some (Server.targetOf config path, init)
    /\ Server.fetchMethod init = Server.method req
    /\ In (js "Authorization",
           js "Basic "
           ++ Server.base64
                (Server.utf8
                   (username (n8n config) ++ js ":" ++ password (n8n config))))
          (Server.fetchHeaders init)
    /\ (Server.method req = js "GET" \/ Server.method req = js "HEAD" ->
        Server.fetchBody init = None)
    /\ (Server.method req <> js "GET" -> Server.method req <> js "HEAD" ->
        Server.fetchBody init
        = Some (JSON_stringify
                  (if truthy (Server.body req) then Server.body req
                   else VObj [])))
    /\ forall upstream text,
         fetch (Server.targetOf config path) init = inr upstream ->
         Server.text upstream = inr text ->
         let reply :=
           Server.reply
             (Server.app config jwt_verify fetch JSON_stringify toLowerCase
                path req) in
         Server.delivered config jwt_verify fetch JSON_stringify toLowerCase
           send path req = send reply
         /\ Server.statusCode reply = Server.status upstream
         /\ Server.payload reply = Server.Text text
         /\ (forall name,
               In name [js "transfer-encoding"; js "content-encoding";
                        js "connection"] ->
               Server.headers reply !! name = None)
         /\ (forall name v,
               Server.headers reply !! name = Some v ->
               exists k,
                 In (k, v) (Server.responseHeaders upstream)
                 /\ toLowerCase k = name)
         /\ (forall before k v after,
               Server.responseHeaders upstream = before ++ (k, v) :: after ->
               ~ In (toLowerCase k)
                   [js "transfer-encoding"; js "content-encoding";
                    js "connection"] ->
               (forall k' v', In (k', v') after ->
                              toLowerCase k' <> toLowerCase k) ->
               Server.headers reply !! toLowerCase k = Some v).
Proof.
  intros Hauth Htarget.
  assert (Happ :
    Server.app config jwt_verify fetch JSON_stringify toLowerCase path req
    = Server.forward config fetch JSON_stringify toLowerCase
        (Server.targetOf config path) req).
  { destruct path; cbn [Server.app Server.targetOf] in *;
      unfold Server.proxyWebhook, Server.proxyWebhookTest, Server.guarded;
      rewrite Hauth;
      unfold Server.webhookHandler, Server.webhookTestHandler;
      by destruct (orStr _ _) || destruct (webhookUrl _). }
  unfold Server.delivered. rewrite Happ. unfold Server.forward.
  cbn [Server.sent Server.reply].
  exists (Server.upstreamInit config JSON_stringify req).
  split; [done|]. split; [done|]. split; [right; left; done|].
  split; [|split].
  - intros Hmethod. unfold Server.upstreamInit. cbn [Server.fetchBody].
    rewrite bool_decide_eq_true_2; [done|].
    destruct Hmethod as [->| ->]; [by left|by right; left].
  - intros Hget Hhead. unfold Server.upstreamInit. cbn [Server.fetchBody].
    rewrite bool_decide_eq_false_2; [done|].
    intros [?|[?|[]%elem_of_nil]%elem_of_cons]%elem_of_cons; done.
  - intros upstream text -> ->.
    cbn [Server.statusCode Server.payload Server.headers].
    split; [done|]. split; [done|]. split; [done|]. split; [|split].
    + intros name Hname%list_elem_of_In. unfold Server.copyHeaders.
      by rewrite foldl_copyHeader_hop.
    + intros name v [H|(k & Hin%list_elem_of_In & Hk)]%foldl_copyHeader_from.
      * by rewrite lookup_empty in H.
      * eauto.
    + intros before k v after -> Hhop Hafter.
      apply copyHeaders_last.
      * by rewrite list_elem_of_In.
      * intros [k' v'] Hin%list_elem_of_In. by apply (Hafter k' v').
Qed.

Lemma proxy_forwards_witness :
  exists init handed,
    Server.sent
      (Server.app Sample.config Sample.jwt_verify Sample.fetch
         Sample.JSON_stringify Server.asciiLowerCase Server.webhook
         Sample.member)
    = Some (js "https://n8n.example.com/webhook/chat", init)
    /\ In (js "Authorization", js "Basic dXNlcjpwYXNz")
         (Server.fetchHeaders init)
    /\ Server.fetchBody init = Some (js "{...}")
    /\ Server.delivered Sample.config Sample.jwt_verify Sample.fetch
         Sample.JSON_stringify Server.asciiLowerCase Sample.send
         Server.webhook Sample.member = Sample.send handed
    /\ Server.statusCode handed = 201%Z
    /\ Server.headers handed !! js "transfer-encoding" = None
    /\ Server.headers handed !! js "x-request-id" = Some (js "request-1").
Proof.
  assert (Hauth : Server.authenticateProxy Sample.config Sample.jwt_verify
                    Sample.member = Server.Next) by reflexivity.
  assert (Htarget : Server.targetOf Sample.config Server.webhook <> [])
    by (vm_compute; discriminate).
  destruct (proxy_forwards Sample.config Sample.jwt_verify Sample.fetch
              Sample.JSON_stringify Server.asciiLowerCase Sample.send
              Server.webhook Sample.member Hauth Htarget)
    as (init & Hsent & _ & Hbasic & _ & Hbody & Hreply).
  destruct (Hreply _ (js "done") eq_refl eq_refl)
    as (Hsend & Hstatus & _ & Hhop & _ & Hcopy).
  exists init. eexists. split; [exact Hsent|]. split; [exact Hbasic|].
  split; [apply Hbody; vm_compute; discriminate|].
  split; [exact Hsend|]. split; [exact Hstatus|]. split.
  - apply Hhop. left. reflexivity.
  - apply (Hcopy [(js "content-type", js "text/plain");
                  (js "Transfer-Encoding", js "chunked")]
             (js "x-request-id") (js "request-1") []).
    + reflexivity.
    + vm_compute. intros [H|[H|[H|[]]]]; discriminate H.
    + intros k' v' [].
Defined.

(** C9, as the specification states it, fails: the upstream sends
    [content-type: text/plain], which is none of the three headers left
    out, and the handler sets it on the response; [res.send] then adds the
    charset, and the caller receives [text/plain; charset=utf-8]. *)
Lemma proxy_forwards_counterexample :
  ~ (Server.authenticateProxy Sample.config Sample.jwt_verify Sample.member
       = Server.Next ->
     forall upstream k v,
       Sample.fetch (Server.targetOf Sample.config Server.webhook)
         (Server.upstreamInit Sample.config Sample.JSON_stringify
            Sample.member) = inr upstream ->
       In (k, v) (Server.responseHeaders upstream) ->
       ~ In (Server.asciiLowerCase k)
           [js "transfer-encoding"; js "content-encoding";
            js "connection"] ->
       Server.headers
         (Server.delivered Sample.config Sample.jwt_verify Sample.fetch
            Sample.JSON_stringify Server.asciiLowerCase Sample.send
            Server.webhook Sample.member) !! Server.asciiLowerCase k
       = Some v).
Proof.
  intros H.
  specialize (H eq_refl _ (js "content-type") (js "text/plain") eq_refl).
  assert (Hsent :
    Server.headers
      (Server.delivered Sample.config Sample.jwt_verify Sample.fetch
         Sample.JSON_stringify Server.asciiLowerCase Sample.send
         Server.webhook Sample.member) !! js "content-type"
    = Some (js "text/plain; charset=utf-8")) by (vm_compute; reflexivity).
  change (Server.asciiLowerCase (js "content-type"))
    with (js "content-type") in H.
  rewrite Hsent in H.
  assert (Hcopied : Some (js "text/plain; charset=utf-8")
                    = Some (js "text/plain")).
  { apply H.
    - left. reflexivity.
    - vm_compute. intros [E|[E|[E|[]]]]; discriminate E. }
  vm_compute in Hcopied. discriminate Hcopied.
Qed.

(** C10.  With the legacy login enabled, a request whose [session] cookie
    holds a token that [jwt.verify] accepts under the configured secret is
    let through by [authenticateProxy] on both paths, whatever session it
    carries: the exchange is the one of the handler, and it is the same
    for every other content of [req.session], so also for a user whose
    [authorized] flag is [false]. *)
Theorem legacy_cookie_admits
    (config : Config)
    (jwt_verify : value -> jsstring -> result value)
    (fetch : jsstring -> Server.FetchInit -> result Server.FetchResponse)
    (JSON_stringify : value -> jsstring)
    (toLowerCase : jsstring -> jsstring)
    (path : Server.Path) (req : Server.Request)
    (token : jsstring) (payload : value) :
  enablePasswordLogin (legacy config) = true ->
  get (Server.cookies req) (js "session") = VStr token ->
  token <> [] ->
  jwt_verify (VStr token) (jwtSecret (legacy config)) = inr payload ->
  Server.authenticateProxy config jwt_verify req = Server.Next
  /\ Server.app config jwt_verify fetch JSON_stringify toLowerCase path req
     = Server.handlerOf config fetch JSON_stringify toLowerCase path req
  /\ forall other : option Session,
       Server.app config jwt_verify fetch JSON_stringify toLowerCase path
         {| Server.method := Server.method req;
            Server.session := other;
            Server.cookies := Server.cookies req;
            Server.contentType := Server.contentType req;
            Server.body := Server.body req |}
       = Server.app config jwt_verify fetch JSON_stringify toLowerCase path
           req.
Proof.
  intros Henabled Hcookie Htoken Hverify.
  assert (Hnext : forall r,
    Server.cookies r = Server.cookies req ->
    Server.authenticateProxy config jwt_verify r = Server.Next).
  { intros r Hr. apply authenticateProxy_next. right.
    apply legacyAdmits_true. rewrite Hr, Hcookie.
    split; [done|]. split; [by destruct token|eauto]. }
  split; [by apply Hnext|].
  assert (Happ : forall r,
    Server.cookies r = Server.cookies req ->
    Server.app config jwt_verify fetch JSON_stringify toLowerCase path r
    = Server.handlerOf config fetch JSON_stringify toLowerCase path r).
  { intros r Hr. destruct path; cbn [Server.app Server.handlerOf];
      unfold Server.proxyWebhook, Server.proxyWebhookTest, Server.guarded;
      by rewrite (Hnext r Hr). }
  split; [by apply Happ|].
  intros other. rewrite !Happ by done. by destruct path.
Qed.

Lemma legacy_cookie_admits_witness :
  Server.authenticateProxy Sample.legacyConfig Sample.jwt_verify
    Sample.legacyRequest = Server.Next
  /\ Server.statusCode
       (Server.reply
          (Server.app Sample.legacyConfig Sample.jwt_verify Sample.fetch
             Sample.JSON_stringify Server.asciiLowerCase Server.webhook
             Sample.legacyRequest)) = 201%Z
  /\ Server.sessionAuthorized Sample.legacyRequest = false.
Proof.
  destruct (legacy_cookie_admits Sample.legacyConfig Sample.jwt_verify
              Sample.fetch Sample.JSON_stringify Server.asciiLowerCase
              Server.webhook Sample.legacyRequest (js "token-1")
              (VObj [(js "sub", VStr (js "user"))]))
    as (Hnext & Happ & _).
  - reflexivity.
  - reflexivity.
  - vm_compute. discriminate.
  - reflexivity.
  - split; [exact Hnext|]. split; [|reflexivity].
    rewrite Happ. reflexivity.
Defined.

(** * Further properties *)

(** ** Return paths *)

Lemma collapseSlashes_cons (c : N) (t : jsstring) :
  c <> 47 -> collapseSlashes (c :: t) = c :: collapseSlashes t.
Proof.
  intros Hc. cbn [collapseSlashes].
  by rewrite (proj2 (N.eqb_neq c 47) Hc).
Qed.

Lemma collapseSlashes_slash (t : jsstring) :
  exists r, collapseSlashes (47 :: t) = 47 :: r.
Proof.
  induction t as [|d t IH]; [by exists []|].
  destruct (decide (d = 47)) as [->|Hd].
  - destruct IH as [r IH]. exists r. by rewrite <- IH.
  - exists (collapseSlashes (d :: t)). cbn [collapseSlashes].
    by rewrite (proj2 (N.eqb_neq d 47) Hd).
Qed.

Lemma collapseSlashes_nil (s : jsstring) :
  collapseSlashes s = [] -> s = [].
Proof.
  destruct s as [|c t]; [done|].
  destruct (decide (c = 47)) as [->|Hc].
  - destruct (collapseSlashes_slash t) as [r ->]. discriminate.
  - by rewrite collapseSlashes_cons.
Qed.

(** What [collapseSlashes] returns has no two slashes in a row. *)
Lemma collapseSlashes_single (s : jsstring) :
  includes (collapseSlashes s) (js "//") = false.
Proof.
  literals. induction s as [|c t IH]; [done|].
  cbn [collapseSlashes].
  destruct ((c =? 47) && _) eqn:Hdrop; [done|].
  cbn [includes]. rewrite IH, orb_false_r.
  apply not_true_is_false.
  intros [r [= -> Hr]]%startsWith_two.
  destruct t as [|d t']; [done|].
  destruct (decide (d = 47)) as [->|Hd]; [done|].
  rewrite collapseSlashes_cons in Hr by done. congruence.
Qed.

(** A string without two slashes in a row is left as it is. *)
Lemma collapseSlashes_fixed (s : jsstring) :
  includes s (js "//") = false -> collapseSlashes s = s.
Proof.
  literals. induction s as [|c t IH]; [done|].
  cbn [includes]. intros [Hhead Htail]%orb_false_elim.
  cbn [collapseSlashes].
  destruct ((c =? 47) && _) eqn:Hdrop.
  - apply andb_prop in Hdrop as [->%N.eqb_eq Hnext].
    destruct t as [|d t']; [done|].
    apply N.eqb_eq in Hnext as ->. done.
  - by rewrite IH.
Qed.

Lemma last_collapseSlashes (s : jsstring) :
  last (collapseSlashes s) = last s.
Proof.
  induction s as [|c t IH]; [done|].
  cbn [collapseSlashes].
  destruct ((c =? 47) && _) eqn:Hdrop.
  - rewrite IH. destruct t; [|done].
    by rewrite andb_false_r in Hdrop.
  - destruct t as [|d t']; [done|].
    change (last (c :: d :: t')) with (last (d :: t')). rewrite <- IH.
    destruct (collapseSlashes (d :: t')) eqn:E; [|done].
    by apply collapseSlashes_nil in E.
Qed.

(** The strings [trimEnd] leaves alone are those that do not end in white
    space. *)
Lemma trimEnd_fixed (s : jsstring) :
  trimEnd s = s <->
  match last s with Some c => isWhiteSpace c = false | None => True end.
Proof.
  induction s as [|c t IH]; [done|].
  cbn [trimEnd]. destruct t as [|d t'].
  - cbn. destruct (isWhiteSpace c); split; congruence.
  - change (last (c :: d :: t')) with (last (d :: t')).
    rewrite <- IH. destruct (trimEnd (d :: t')) eqn:E.
    + split; [by destruct (isWhiteSpace c)|]. discriminate.
    + split; congruence.
Qed.

Lemma trimEnd_idempotent (s : jsstring) : trimEnd (trimEnd s) = trimEnd s.
Proof.
  induction s as [|c t IH]; [done|].
  cbn [trimEnd]. destruct (trimEnd t) as [|d t'] eqn:E.
  - destruct (isWhiteSpace c) eqn:Hc; [done|]. by rewrite trimEnd_keeps.
  - rewrite trimEnd_cons_nonempty; by rewrite IH.
Qed.

(** The normalised form of a trimmed string that starts with a slash is
    left alone by [trim]. *)
Lemma trim_collapseSlashes (s : jsstring) :
  startsWith (trim s) (js "/") = true ->
  trim (collapseSlashes (trim s)) = collapseSlashes (trim s).
Proof.
  literals. intros [t Ht]%startsWith_one.
  assert (Hend : trimEnd (collapseSlashes (trim s)) = collapseSlashes (trim s)).
  { apply trimEnd_fixed. rewrite last_collapseSlashes.
    apply trimEnd_fixed. apply trimEnd_idempotent. }
  unfold trim at 1. rewrite Ht in *.
  destruct (collapseSlashes_slash t) as [r Hr]. rewrite Hr in *.
  cbn [trimStart]. by rewrite isWhiteSpace_slash.
Qed.

(** Unless the same-origin branch answers, the validator returns [/] or the
    normalised form of a trimmed input that starts with a slash and has
    passed the two tests. *)
Lemma validateReturnTo_cases
    (new_URL : parser) (returnTo : value) (baseUrl : jsstring) :
  (forall s, returnTo = VStr s ->
             sameOrigin new_URL (trim s) baseUrl = false) ->
  validateReturnTo new_URL returnTo baseUrl = js "/"
  \/ exists s,
       returnTo = VStr s
       /\ startsWith (trim s) (js "/") = true
       /\ validateReturnTo new_URL returnTo baseUrl = collapseSlashes (trim s)
       /\ includes (collapseSlashes (trim s)) (js "..") = false
       /\ includes (collapseSlashes (trim s)) backslash = false.
Proof.
  intros Hother.
  destruct returnTo as [| | | |[|c s]| |]; try by left.
  specialize (Hother (c :: s) eq_refl). unfold sameOrigin in Hother.
  assert (Habsolute :
    match new_URL (trim (c :: s)) with
    | Some url =>
        match new_URL baseUrl with
        | Some base =>
            if bool_decide (origin url = origin base)
            then pathname url ++ search url ++ hash url
            else js "/"
        | None => js "/"
        end
    | None => js "/"
    end = js "/").
  { destruct (new_URL (trim (c :: s))) as [url|]; [|done].
    destruct (new_URL baseUrl) as [base|]; [|done]. by rewrite Hother. }
  unfold validateReturnTo. cbv zeta.
  destruct (startsWith (trim (c :: s)) (js "/")) eqn:Hslash;
    [|by left].
  destruct (startsWith (trim (c :: s)) (js "//")); [by left|].
  destruct (includes (collapseSlashes (trim (c :: s))) (js "..")) eqn:Hdots;
    [by left|].
  destruct (includes (collapseSlashes (trim (c :: s))) backslash) eqn:Hback;
    [by left|].
  right. by exists (c :: s).
Qed.

(** X1.  Unless the trimmed input is an absolute URL of the origin of the
    base URL, what the validator returns starts with a slash and contains
    neither two slashes in a row, nor two dots in a row, nor a
    backslash. *)
Theorem validateReturnTo_safe
    (new_URL : parser) (returnTo : value) (baseUrl : jsstring) :
  (forall s, returnTo = VStr s ->
             sameOrigin new_URL (trim s) baseUrl = false) ->
  startsWith (validateReturnTo new_URL returnTo baseUrl) (js "/") = true
  /\ includes (validateReturnTo new_URL returnTo baseUrl) (js "//") = false
  /\ includes (validateReturnTo new_URL returnTo baseUrl) (js "..") = false
  /\ includes (validateReturnTo new_URL returnTo baseUrl) backslash = false.
Proof.
  intros Hother.
  destruct (validateReturnTo_cases new_URL returnTo baseUrl Hother)
    as [->|(s & _ & Hslash & -> & Hdots & Hback)]; [done|].
  repeat split; try done.
  - revert Hslash. literals. intros [t ->]%startsWith_one.
    destruct (collapseSlashes_slash t) as [r ->]. done.
  - apply collapseSlashes_single.
Qed.

Lemma validateReturnTo_safe_witness :
  startsWith
    (validateReturnTo sample (VStr (js " /a//b?next=/c ")) (js "https://example.com"))
    (js "/") = true
  /\ includes
       (validateReturnTo sample (VStr (js " /a//b?next=/c ")) (js "https://example.com"))
       (js "//") = false.
Proof.
  destruct (validateReturnTo_safe sample (VStr (js " /a//b?next=/c "))
              (js "https://example.com")) as (H1 & H2 & _).
  - intros s [= <-]. vm_compute. reflexivity.
  - split; [exact H1|exact H2].
Defined.

(** X2.  Validating again what the validator returned changes nothing,
    unless the first answer came from the same-origin branch: the callback
    route, which validates the stored return path once more, redirects to
    the path the login stored. *)
Theorem validateReturnTo_revalidates
    (new_URL : parser) (returnTo : value) (baseUrl : jsstring) :
  (forall s, returnTo = VStr s ->
             sameOrigin new_URL (trim s) baseUrl = false) ->
  validateReturnTo new_URL (VStr (validateReturnTo new_URL returnTo baseUrl))
    baseUrl
  = validateReturnTo new_URL returnTo baseUrl.
Proof.
  intros Hother.
  destruct (validateReturnTo_cases new_URL returnTo baseUrl Hother)
    as [->|(s & _ & Hslash & -> & Hdots & Hback)]; [done|].
  pose proof (trim_collapseSlashes s Hslash) as Htrim.
  pose proof (collapseSlashes_single (trim s)) as Hsingle.
  revert Hslash. literals. intros [t Ht]%startsWith_one.
  destruct (collapseSlashes_slash t) as [r Hr].
  rewrite Ht in *. rewrite Hr in *.
  unfold validateReturnTo. rewrite Htrim. literals.
  assert (Hone : startsWith (47 :: r) [47] = true) by done.
  assert (Htwo : startsWith (47 :: r) [47; 47] = false).
  { apply not_true_is_false. intros H.
    cbn [includes] in Hsingle. by rewrite H in Hsingle. }
  rewrite Hone, Htwo. cbn [negb andb].
  rewrite (collapseSlashes_fixed (47 :: r)) by (literals; done).
  by rewrite Hdots, Hback.
Qed.

Lemma validateReturnTo_revalidates_witness :
  validateReturnTo sample
    (VStr (validateReturnTo sample (VStr (js " /a//b?next=/c "))
             (js "https://example.com")))
    (js "https://example.com")
  = js "/a/b?next=/c".
Proof.
  rewrite (validateReturnTo_revalidates sample (VStr (js " /a//b?next=/c "))
             (js "https://example.com")).
  - reflexivity.
  - intros s [= <-]. vm_compute. reflexivity.
Defined.

(** The same-origin branch is the exception: the path of an absolute URL
    may contain two dots, and the second validation then answers [/]. *)
Example validateReturnTo_revalidates_absolute :
  validateReturnTo sample (VStr (js "https://example.com/a..b"))
    (js "https://example.com") = js "/a..b"
  /\ validateReturnTo sample (VStr (js "/a..b")) (js "https://example.com")
     = js "/".
Proof. split; reflexivity. Qed.

(** ** The OIDC transaction, continued *)

Lemma handleCallback_no_client
    (config : Config) (err : Error) (now : Z) (query : object)
    (session : Session) :
  handleCallback config (inl err) now query session = (inl err, session).
Proof. reflexivity. Qed.

Lemma handleCallback_no_transaction
    (config : Config) (client : Client) (now : Z) (query : object)
    (session : Session) :
  oidcTransaction session = None ->
  handleCallback config (inr client) now query session
  = (inl NoTransaction, session).
Proof. intros H. unfold handleCallback. run. by rewrite H. Qed.

(** What a return of [handleCallback] tells. *)
Lemma handleCallback_inr
    (config : Config) (oidc : result Client) (now : Z) (query : object)
    (session session' : Session) (tokenSet : TokenSet) (payload : object)
    (target : jsstring) :
  handleCallback config oidc now query session
    = (inr (tokenSet, payload, target), session') ->
  exists client txn,
    oidc = inr client
    /\ oidcTransaction session = Some txn
    /\ (now - createdAt txn <= 5 * 60 * 1000)%Z
    /\ get query (js "state") = VStr (state txn)
    /\ claims tokenSet = inr payload
    /\ get payload (js "nonce") = VStr (nonce txn)
    /\ target = returnTo txn
    /\ session' = {| user := user session; oidcTransaction := None |}.
Proof.
  destruct oidc as [err|client]; [discriminate|].
  destruct (oidcTransaction session) as [txn|] eqn:Hpending.
  2: { by rewrite handleCallback_no_transaction. }
  destruct (Z_le_gt_dec (now - createdAt txn) TRANSACTION_TTL) as [Hlive|Hold].
  2: { by rewrite (handleCallback_expired_eq _ _ _ _ _ _ Hpending Hold). }
  destruct (eqStr (get query (js "state")) (state txn)) eqn:Hstate.
  2: { apply eqStr_false in Hstate.
       by rewrite (handleCallback_state_eq _ _ _ _ _ _ Hpending Hlive Hstate). }
  apply eqStr_true in Hstate.
  rewrite (handleCallback_exchange_eq _ _ _ _ _ _ Hpending Hlive Hstate).
  destruct (callbackParams client query) as [err|params]; [discriminate|].
  destruct (callback client _ params _) as [err|tokenSet']; [discriminate|].
  destruct (claims tokenSet') as [err|payload'] eqn:Hclaims; [discriminate|].
  destruct (eqStr (get payload' (js "nonce")) (nonce txn)) eqn:Hnonce;
    [|discriminate].
  apply eqStr_true in Hnonce. intros [= -> -> <- <-].
  exists client, txn. done.
Qed.


(** X3.  [handleCallback] returns only when the provider client is at
    hand, the session carries a transaction that is at most five minutes
    old, the [state] of the query is the stored one and the nonce of the
    claims is the stored one; it then returns the stored return path and has
    deleted the transaction. *)
Theorem handleCallback_returns
    (config : Config) (oidc : result Client) (now : Z) (query : object)
    (session session' : Session) (tokenSet : TokenSet) (payload : object)
    (target : jsstring) :
  handleCallback config oidc now query session
    = (inr (tokenSet, payload, target), session') ->
  exists client txn,
    oidc = inr client
    /\ oidcTransaction session = Some txn
    /\ (now - createdAt txn <= 5 * 60 * 1000)%Z
    /\ get query (js "state") = VStr (state txn)
    /\ claims tokenSet = inr payload
    /\ get payload (js "nonce") = VStr (nonce txn)
    /\ target = returnTo txn
    /\ session' = {| user := user session; oidcTransaction := None |}.
Proof. apply handleCallback_inr. Qed.

Lemma handleCallback_returns_witness :
  exists client txn,
    Sample.oidc = inr client
    /\ oidcTransaction Sample.pending = Some txn
    /\ get Sample.callbackQuery (js "state") = VStr (state txn)
    /\ get Sample.payload (js "nonce") = VStr (nonce txn).
Proof.
  destruct (handleCallback_returns Sample.config Sample.oidc 2000
              Sample.callbackQuery Sample.pending
              {| user := None; oidcTransaction := None |}
              (Sample.tokenSetOf Sample.payload) Sample.payload
              (js "/chat.html") eq_refl)
    as (client & txn & H1 & H2 & _ & H3 & _ & H4 & _).
  exists client, txn. done.
Defined.

(** What [handleCallback] does to the session. *)
Lemma handleCallback_session
    (config : Config) (oidc : result Client) (now : Z) (query : object)
    (session : Session) :
  user (handleCallback config oidc now query session).2 = user session
  /\ (oidcTransaction (handleCallback config oidc now query session).2
        = oidcTransaction session
      \/ oidcTransaction (handleCallback config oidc now query session).2
        = None).
Proof.
  destruct oidc as [err|client]; [by split; [|left]|].
  destruct (oidcTransaction session) as [txn|] eqn:Hpending.
  2: { rewrite handleCallback_no_transaction by done. by split; [|right]. }
  destruct (Z_le_gt_dec (now - createdAt txn) TRANSACTION_TTL) as [Hlive|Hold].
  2: { rewrite (handleCallback_expired_eq _ _ _ _ _ _ Hpending Hold).
       by split; [|right]. }
  destruct (eqStr (get query (js "state")) (state txn)) eqn:Hstate.
  2: { apply eqStr_false in Hstate.
       rewrite (handleCallback_state_eq _ _ _ _ _ _ Hpending Hlive Hstate).
       by split; [|right]. }
  apply eqStr_true in Hstate.
  rewrite (handleCallback_exchange_eq _ _ _ _ _ _ Hpending Hlive Hstate).
  destruct (callbackParams client query) as [err|params];
    [by split; [|left]|].
  destruct (callback client _ params _) as [err|tokenSet];
    [by split; [|left]|].
  destruct (claims tokenSet) as [err|payload]; [by split; [|left]|].
  destruct (eqStr (get payload (js "nonce")) (nonce txn));
    by split; [|left + right].
Qed.

(** X4.  Whatever happens, [handleCallback] leaves [session.user] alone,
    and the transaction is afterwards either the one it found or
    absent. *)
Theorem handleCallback_frame
    (config : Config) (oidc : result Client) (now : Z) (query : object)
    (session : Session) :
  user (handleCallback config oidc now query session).2 = user session
  /\ (oidcTransaction (handleCallback config oidc now query session).2
        = oidcTransaction session
      \/ oidcTransaction (handleCallback config oidc now query session).2
        = None).
Proof. apply handleCallback_session. Qed.

(** X5.  When the provider client cannot be obtained, [handleCallback]
    throws that error before it reads the session, which it leaves as it
    was, expired transaction or not; with the client at hand and no
    transaction on the session, it throws the error of the missing
    transaction and leaves the session as it was. *)
Theorem handleCallback_before_checks
    (config : Config) (now : Z) (query : object) (session : Session) :
  (forall err,
     handleCallback config (inl err) now query session = (inl err, session))
  /\ (forall client,
        oidcTransaction session = None ->
        handleCallback config (inr client) now query session
        = (inl NoTransaction, session)).
Proof.
  split; [intros err; apply handleCallback_no_client|].
  intros client. apply handleCallback_no_transaction.
Qed.

Lemma handleCallback_before_checks_witness :
  handleCallback Sample.config (inl (mkError (js "getaddrinfo ENOTFOUND")))
    301001 Sample.callbackQuery Sample.pending
  = (inl (mkError (js "getaddrinfo ENOTFOUND")), Sample.pending)
  /\ handleCallback Sample.config Sample.oidc 2000 Sample.callbackQuery
       {| user := None; oidcTransaction := None |}
     = (inl NoTransaction, {| user := None; oidcTransaction := None |}).
Proof.
  split.
  - apply (handleCallback_before_checks Sample.config 301001
             Sample.callbackQuery Sample.pending).
  - apply (handleCallback_before_checks Sample.config 2000
             Sample.callbackQuery {| user := None; oidcTransaction := None |}).
    reflexivity.
Defined.

(** X6.  A login followed, within five minutes, by the callback that
    carries the [state] the login drew, when the exchange made with the
    drawn verifier, state and nonce yields claims with the drawn nonce:
    [handleCallback] returns the tokens, the claims and the return path as
    the login validated it, and the session is the one before the login,
    without a transaction. *)
Theorem handleCallback_after_login
    (config : Config) (new_URL : parser) (client : Client)
    (codeChallenge : jsstring -> jsstring) (drawn : Drawn) (began now : Z)
    (returnTo : value) (query : object) (session : Session)
    (params : value) (tokenSet : TokenSet) (payload : object) :
  (now - began <= 5 * 60 * 1000)%Z ->
  get query (js "state") = VStr (drawnState drawn) ->
  callbackParams client query = inr params ->
  callback client (baseUrl config ++ redirectPath (entra config)) params
    {| code_verifier := drawnCodeVerifier drawn;
       checks_state := drawnState drawn;
       checks_nonce := drawnNonce drawn |} = inr tokenSet ->
  claims tokenSet = inr payload ->
  get payload (js "nonce") = VStr (drawnNonce drawn) ->
  handleCallback config (inr client) now query
    (buildAuthorizationUrl config new_URL (inr client) codeChallenge drawn
       began returnTo session).2
  = (inr (tokenSet, payload,
          validateReturnTo new_URL returnTo (baseUrl config)),
     {| user := user session; oidcTransaction := None |}).
Proof.
  intros Hlive Hstate Hparams Hexchange Hclaims Hnonce.
  rewrite (handleCallback_exchange_eq config client now query _
             {| state := drawnState drawn;
                nonce := drawnNonce drawn;
                codeVerifier := drawnCodeVerifier drawn;
                returnTo := validateReturnTo new_URL returnTo (baseUrl config);
                createdAt := began |}); try done.
  cbn [codeVerifier state nonce Auth.returnTo].
  rewrite Hparams, Hexchange, Hclaims, Hnonce.
  by rewrite (proj2 (eqStr_true _ _) eq_refl).
Qed.

Lemma handleCallback_after_login_witness :
  handleCallback Sample.config (inr (Sample.clientWith
                                       (inr (Sample.tokenSetOf Sample.payload))))
    2000 Sample.callbackQuery
    (buildAuthorizationUrl Sample.config sample
       (inr (Sample.clientWith (inr (Sample.tokenSetOf Sample.payload))))
       Sample.codeChallenge Sample.drawn 1000
       (VStr (js "/chat.html")) {| user := None; oidcTransaction := None |}).2
  = (inr (Sample.tokenSetOf Sample.payload, Sample.payload, js "/chat.html"),
     {| user := None; oidcTransaction := None |}).
Proof.
  apply (handleCallback_after_login Sample.config sample
           (Sample.clientWith (inr (Sample.tokenSetOf Sample.payload)))
           Sample.codeChallenge Sample.drawn 1000 2000
           (VStr (js "/chat.html")) Sample.callbackQuery
           {| user := None; oidcTransaction := None |}
           (VObj Sample.callbackQuery)
           (Sample.tokenSetOf Sample.payload) Sample.payload).
  - vm_compute. discriminate.
  - reflexivity.
  - reflexivity.
  - reflexivity.
  - reflexivity.
  - reflexivity.
Defined.

(** ** The group check, continued *)

(** With a group configured the answer is read off the claims: a [groups]
    array decides, otherwise a truthy [_claim_names.groups] is an overage,
    otherwise the claim is missing. *)
Lemma checkGroupMembership_configured
    (config : Config) (payload : object) (tokenSet : TokenSet) :
  allowedGroupId (entra config) <> [] ->
  checkGroupMembership config payload tokenSet
  = match get payload (js "groups") with
    | VArr items =>
        inr (arrayIncludes (VArr items) (allowedGroupId (entra config)))
    | _ =>
        if truthy (prop (get payload (js "_claim_names")) (js "groups"))
        then inl GroupOverage
        else inl GroupClaimMissing
    end.
Proof.
  intros Hid. unfold checkGroupMembership.
  destruct (allowedGroupId (entra config)) as [|c id]; [done|].
  cbn [isEmpty]. rewrite truthy_and_prop.
  destruct (get payload (js "groups"));
    cbn [truthy isArray]; by rewrite ?andb_false_r.
Qed.

Lemma not_arrayIncludes_In (items : list value) (s : jsstring) :
  arrayIncludes (VArr items) s = false <-> ~ In (VStr s) items.
Proof.
  rewrite <- arrayIncludes_In. by destruct (arrayIncludes _ _).
Qed.

Lemma GroupOverage_not_missing : GroupOverage <> GroupClaimMissing.
Proof. vm_compute. discriminate. Qed.

(** X7.  With a group configured, [checkGroupMembership] returns [false]
    exactly when the claims carry a [groups] array without the configured
    identifier, and throws the overage error exactly when they carry no
    [groups] array and a truthy [_claim_names.groups]: a [groups] array
    goes before the overage marker. *)
Theorem checkGroupMembership_denies
    (config : Config) (payload : object) (tokenSet : TokenSet) :
  allowedGroupId (entra config) <> [] ->
  (checkGroupMembership config payload tokenSet = inr false <->
   exists items,
     get payload (js "groups") = VArr items
     /\ ~ In (VStr (allowedGroupId (entra config))) items)
  /\
  (checkGroupMembership config payload tokenSet = inl GroupOverage <->
   (forall items, get payload (js "groups") <> VArr items)
   /\ truthy (prop (get payload (js "_claim_names")) (js "groups")) = true).
Proof.
  intros Hid. rewrite checkGroupMembership_configured by done.
  pose proof GroupOverage_not_missing as Hne.
  destruct (get payload (js "groups")) as [| | | | |items|] eqn:Hgroups.
  6: { split.
       - split.
         + intros [= H]. exists items. split; [done|].
           by apply not_arrayIncludes_In.
         + intros (items' & [= <-] & H%not_arrayIncludes_In). by rewrite H.
       - split; [discriminate|]. intros [H _]. by destruct (H items). }
  all: split;
    [split; [by destruct (truthy _)|by intros (items & ? & _)]|];
    destruct (truthy _); split;
    solve [done | congruence | intros [_ ?]; done | intros [= ?]; done].
Qed.

Lemma checkGroupMembership_denies_witness :
  checkGroupMembership Sample.config
    [(js "groups", VArr [VStr (js "group-0")]);
     (js "_claim_names", VObj [(js "groups", VStr (js "src1"))])]
    (Sample.tokenSetOf Sample.payload) = inr false
  /\ checkGroupMembership Sample.config
       [(js "_claim_names", VObj [(js "groups", VStr (js "src1"))])]
       (Sample.tokenSetOf Sample.payload) = inl GroupOverage.
Proof.
  assert (Hid : allowedGroupId (entra Sample.config) <> [])
    by (vm_compute; discriminate).
  split.
  - apply (checkGroupMembership_denies Sample.config _
             (Sample.tokenSetOf Sample.payload) Hid).
    exists [VStr (js "group-0")]. split; [reflexivity|].
    vm_compute. intros [H|[]]. discriminate H.
  - apply (checkGroupMembership_denies Sample.config _
             (Sample.tokenSetOf Sample.payload) Hid).
    split; [|reflexivity]. intros items. vm_compute. discriminate.
Defined.

(** ** The callback route, continued *)

Lemma completeLogin_session
    (config : Config) (oidc : result Client) (ToString : value -> jsstring)
    (now : Z) (query : object) (session : Session) :
  user (completeLogin config oidc ToString now query session).2
  = user session.
Proof.
  unfold completeLogin. run.
  destruct (truthy (get query (js "error"))); [done|].
  pose proof (handleCallback_session config oidc now query session)
    as [Huser _].
  destruct (handleCallback config oidc now query session)
    as [[err|[[tokenSet payload] target]] session']; [done|].
  by destruct (checkGroupMembership config payload tokenSet).
Qed.

Lemma escapeUnit_safe (c d : N) :
  In d (escapeUnit c) -> d <> 60 /\ d <> 62 /\ d <> 34 /\ d <> 39.
Proof.
  unfold escapeUnit.
  destruct (N.eqb_spec c 38); [|destruct (N.eqb_spec c 60);
    [|destruct (N.eqb_spec c 62); [|destruct (N.eqb_spec c 34);
      [|destruct (N.eqb_spec c 39)]]]]; literals; cbn [In]; intros H.
  all: repeat (destruct H as [<-|H]; [lia|]); done.
Qed.

(** What [escapeHtml] returns holds none of the units [<], [>], the
    double quote and the single quote. *)
Lemma escapeHtml_units (str : jsstring) (d : N) :
  In d (escapeHtml str) -> d <> 60 /\ d <> 62 /\ d <> 34 /\ d <> 39.
Proof.
  unfold escapeHtml. intros (c & _ & H)%in_flat_map.
  by apply escapeUnit_safe in H.
Qed.

(** X8.  When the callback route answers with the error page, the status
    is 400, no login has happened (the identifier of the session, its
    [user] and the query are as they were) and the message on the page
    holds none of [<], [>] and the two quotes. *)
Theorem callbackRoute_failure
    (config : Config) (new_URL : parser) (oidc : result Client)
    (ToString : value -> jsstring)
    (regenerate : Request -> option Error * Request)
    (now : Z) (req after : Request) (status : Z) (text : jsstring) :
  callbackRoute config new_URL oidc ToString regenerate now req
    = (LoginErrorPage status text, after) ->
  status = 400%Z
  /\ sessionID after = sessionID req
  /\ user (Auth.session after) = user (Auth.session req)
  /\ query after = query req
  /\ forall d, In d text -> d <> 60 /\ d <> 62 /\ d <> 34 /\ d <> 39.
Proof.
  unfold callbackRoute.
  pose proof (completeLogin_session config oidc ToString now (query req)
                (Auth.session req)) as Huser.
  destruct (completeLogin _ _ _ _ _ _)
    as [[err|[[[tokenSet payload] target] authorized]] session'].
  - intros [= <- <- <-].
    split; [done|]. split; [done|]. split; [done|]. split; [done|].
    intros d. apply escapeHtml_units.
  - by destruct (regenerate _).
Qed.

Lemma callbackRoute_failure_witness :
  user (Auth.session
          (callbackRoute Sample.config sample Sample.oidc Sample.ToString
             Sample.regenerate 2000
             {| sessionID := js "sid-1";
                session := Sample.pending;
                query := [(js "state", VStr (js "state-0"))] |}).2)
  = None.
Proof.
  destruct (callbackRoute_failure Sample.config sample Sample.oidc
              Sample.ToString Sample.regenerate 2000
              {| sessionID := js "sid-1";
                 session := Sample.pending;
                 query := [(js "state", VStr (js "state-0"))] |}
              {| sessionID := js "sid-1";
                 session := {| user := None; oidcTransaction := None |};
                 query := [(js "state", VStr (js "state-0"))] |}
              400 (js "Invalid state parameter. Possible CSRF attack.")
              eq_refl)
    as (_ & _ & H & _).
  exact H.
Defined.

(** X9.  After a completed login, the [authorized] flag of the user on the
    session tells whether the validated claims carry a [groups] array with
    the configured group, when one is configured; when none is configured
    the flag is set for every user. *)
Theorem callbackRoute_authorized
    (config : Config) (new_URL : parser) (oidc : result Client)
    (ToString : value -> jsstring)
    (regenerate : Request -> option Error * Request)
    (now : Z) (req after : Request) (location : jsstring) :
  callbackRoute config new_URL oidc ToString regenerate now req
    = (Redirect location, after) ->
  exists tokenSet payload target session' u,
    handleCallback config oidc now (query req) (Auth.session req)
      = (inr (tokenSet, payload, target), session')
    /\ user (Auth.session after) = Some u
    /\ (allowedGroupId (entra config) = [] -> authorized u = true)
    /\ (allowedGroupId (entra config) <> [] ->
        (authorized u = true <->
         exists items,
           get payload (js "groups") = VArr items
           /\ In (VStr (allowedGroupId (entra config))) items)).
Proof.
  intros (tokenSet & payload & target & flag & session' & Hlogin & _ & ->)
    %callbackRoute_redirects.
  apply completeLogin_returns in Hlogin as (_ & Hcallback & Hgroup).
  exists tokenSet, payload, target, session',
    (userOf payload flag tokenSet).
  split; [done|]. split; [done|]. cbn [userOf authorized]. split.
  - intros Hnone. unfold checkGroupMembership in Hgroup.
    rewrite Hnone in Hgroup. by injection Hgroup.
  - intros Hid. rewrite checkGroupMembership_configured in Hgroup by done.
    destruct (get payload (js "groups")) as [| | | | |items|];
      try (destruct (truthy _); discriminate Hgroup).
    assert (flag = arrayIncludes (VArr items) (allowedGroupId (entra config)))
      as -> by congruence.
    rewrite arrayIncludes_In. split.
    + eauto.
    + by intros (items' & [= <-] & H).
Qed.

Lemma callbackRoute_authorized_witness :
  exists u,
    user (Auth.session
            (callbackRoute Sample.config sample Sample.oidc Sample.ToString
               Sample.regenerate 2000 Sample.callbackRequest).2) = Some u
    /\ authorized u = true.
Proof.
  destruct (callbackRoute_authorized Sample.config sample Sample.oidc
              Sample.ToString Sample.regenerate 2000 Sample.callbackRequest
              (callbackRoute Sample.config sample Sample.oidc Sample.ToString
                 Sample.regenerate 2000 Sample.callbackRequest).2
              (js "/chat.html") eq_refl)
    as (tokenSet & payload & target & session' & u & Hcallback & Hu & _ & Hin).
  exists u. split; [exact Hu|].
  apply Hin; [vm_compute; discriminate|].
  injection Hcallback as _ <- _ _.
  exists [VStr (js "group-0"); VStr (js "group-1")].
  split; [reflexivity|]. right. left. reflexivity.
Defined.

(** ** The escaping of the error page *)

(** X10.  What [escapeHtml] returns holds none of the units [<], [>], the
    double quote and the single quote, whatever the input. *)
Theorem escapeHtml_safe (str : jsstring) :
  Forall (fun d => d <> 60 /\ d <> 62 /\ d <> 34 /\ d <> 39)
    (escapeHtml str).
Proof.
  apply Forall_forall. intros d Hd%list_elem_of_In.
  exact (escapeHtml_units str d Hd).
Qed.

Example escapeHtml_script :
  escapeHtml (js "<script>alert('x')</script>")
  = js "&lt;script&gt;alert(&#39;x&#39;)&lt;/script&gt;".
Proof. reflexivity. Qed.

Lemma replaceUnit_app (c : N) (by_ s t : jsstring) :
  Text.replaceUnit c by_ (s ++ t)
  = Text.replaceUnit c by_ s ++ Text.replaceUnit c by_ t.
Proof. apply flat_map_app. Qed.

Lemma replaceUnit_other (c x : N) (by_ : jsstring) :
  x <> c -> Text.replaceUnit c by_ [x] = [x].
Proof.
  intros H. unfold Text.replaceUnit. cbn [flat_map].
  by rewrite (proj2 (N.eqb_neq x c) H).
Qed.

(** On one unit, the five replacements in the order of the source do what
    the table of [escapeUnit] says. *)
Lemma escapeHtmlChain_unit (x : N) :
  Text.replaceUnit 39 (js "&#39;")
    (Text.replaceUnit 34 (js "&quot;")
       (Text.replaceUnit 62 (js "&gt;")
          (Text.replaceUnit 60 (js "&lt;")
             (Text.replaceUnit 38 (js "&amp;") [x]))))
  = escapeUnit x.
Proof.
  unfold escapeUnit.
  destruct (N.eqb_spec x 38) as [->|H38]; [reflexivity|].
  rewrite (replaceUnit_other 38) by done.
  destruct (N.eqb_spec x 60) as [->|H60]; [reflexivity|].
  rewrite (replaceUnit_other 60) by done.
  destruct (N.eqb_spec x 62) as [->|H62]; [reflexivity|].
  rewrite (replaceUnit_other 62) by done.
  destruct (N.eqb_spec x 34) as [->|H34]; [reflexivity|].
  rewrite (replaceUnit_other 34) by done.
  destruct (N.eqb_spec x 39) as [->|H39]; [reflexivity|].
  by rewrite (replaceUnit_other 39).
Qed.

(** X11.  The chain of the five replacements of [escapeHtml], run in the
    order of the source with the ampersand first, escapes every unit of the
    input once: no entity it has written is escaped again. *)
Theorem escapeHtmlChain_escapes_once (str : jsstring) :
  Guards.escapeHtmlChain str = flat_map escapeUnit str.
Proof.
  unfold Guards.escapeHtmlChain. destruct str as [|c str]; [done|].
  cbn [isEmpty]. generalize (c :: str). clear c str.
  intros s. induction s as [|x s IH]; [done|].
  change (x :: s) with ([x] ++ s).
  rewrite !replaceUnit_app, IH, escapeHtmlChain_unit. done.
Qed.

Example escapeHtmlChain_ampersand :
  Guards.escapeHtmlChain (js "a<b&c") = js "a&lt;b&amp;c".
Proof. reflexivity. Qed.

(** ** The guards and the status route *)




(** A visitor without a session is sent to the login with the page as
    return path; a user outside the group is shown the page of the denied
    access; a user of the group is sent the chat page. *)
Example chatPage_visitors :
  Guards.chatPage Fixture.encodeURIComponent Sample.config Fixture.visitor
    = Guards.Redirect (js "/auth/login?returnTo=%2Fchat.html")
  /\ Guards.chatPage Fixture.encodeURIComponent Sample.config
       (Fixture.visit Sample.denied) = Guards.AccessDeniedPage 403
  /\ Guards.chatPage Fixture.encodeURIComponent Sample.config
       (Fixture.visit Fixture.allowed) = Guards.SendFile (js "chat.html").
Proof. repeat split; reflexivity. Qed.

(** X13.  The status route shows the e-mail address, the name and the
    [authorized] flag of the user and nothing else of the session: two
    sessions whose users agree on the three are answered alike, whatever
    their subjects, ID tokens and transactions. *)
Theorem statusRoute_discloses
    (req req' : Guards.Request) (u u' : User) :
  Guards.sessionUser req = Some u ->
  Guards.sessionUser req' = Some u' ->
  email u = email u' ->
  name u = name u' ->
  authorized u = authorized u' ->
  Guards.statusRoute req = Guards.statusRoute req'.
Proof.
  intros Hu Hu' Hemail Hname Hflag. unfold Guards.statusRoute.
  by rewrite Hu, Hu', Hemail, Hname, Hflag.
Qed.

Lemma statusRoute_discloses_witness :
  Guards.statusRoute (Fixture.visit Fixture.allowed)
  = Guards.statusRoute
      {| Guards.session :=
           Some {| user :=
                     Some {| sub := VStr (js "subject-2");
                             email := VStr (js "ada@example.com");
                             name := VStr (js "Ada");
                             authorized := true;
                             idToken := VStr (js "id-token-2") |};
                   oidcTransaction := Some Sample.transaction |};
         Guards.originalUrl := js "/auth/status";
         Guards.url := js "/status";
         Guards.xhr := true;
         Guards.accept := None;
         Guards.render := true |}.
Proof.
  apply (statusRoute_discloses _ _ Fixture.allowed
           {| sub := VStr (js "subject-2");
              email := VStr (js "ada@example.com");
              name := VStr (js "Ada");
              authorized := true;
              idToken := VStr (js "id-token-2") |});
    reflexivity.
Defined.

(** ** The provider client *)





(** ** The session store *)

(** X16.  Up to ten attempts the client waits a hundred milliseconds per
    attempt made, at most a second: the bound of three seconds is never
    reached; from the eleventh attempt on the strategy answers with the
    error that ends the reconnection. *)
Theorem reconnectStrategy_delays (retries : Z) :
  ((retries <= 10)%Z ->
   Store.reconnectStrategy retries = inr (retries * 100)%Z
   /\ (retries * 100 <= 1000)%Z)
  /\ ((retries > 10)%Z ->
      Store.reconnectStrategy retries
      = inl (mkError (js "Redis max reconnection attempts reached"))).
Proof.
  unfold Store.reconnectStrategy.
  destruct (Z.gtb_spec retries 10) as [Hmany|Hfew]; split; intros Hr;
    try lia; [done|].
  split; [|lia]. f_equal. lia.
Qed.

Lemma reconnectStrategy_delays_witness :
  Store.reconnectStrategy 10 = inr 1000%Z
  /\ Store.reconnectStrategy 11
     = inl (mkError (js "Redis max reconnection attempts reached")).
Proof.
  split.
  - apply (reconnectStrategy_delays 10). lia.
  - apply (reconnectStrategy_delays 11). lia.
Defined.

(** X17.  When [createSessionMiddleware] returns, the sessions are kept in
    memory exactly when no Redis URL is configured, or when, outside
    production, the Redis client could not be loaded or connected or the
    store could not be built; in production such a failure makes it throw
    instead. *)
Theorem createSessionMiddleware_store
    (config : Env.Loaded) (redis : Store.Redis) :
  let unset :=
    Env.redisUrl (Env.sessionSettings config) = None
    \/ Env.redisUrl (Env.sessionSettings config) = Some [] in
  let unreachable :=
    (exists err, Store.loaded redis = inl err)
    \/ (exists err, Store.connected redis = inl err)
    \/ (exists err, Store.stored redis = inl err) in
  (forall options vars,
     Store.createSessionMiddleware config redis = (inr options, vars) ->
     (Store.store options = None <->
      unset \/ (Env.isProduction config = false /\ unreachable)))
  /\ (~ unset -> Env.isProduction config = true -> unreachable ->
      (Store.createSessionMiddleware config redis).1
      = inl Store.productionNeedsRedis).
Proof.
  cbv zeta. unfold Store.createSessionMiddleware.
  destruct (Env.redisUrl (Env.sessionSettings config)) as [[|c url]|].
  1, 3: split; [|intros H; destruct H; auto];
    intros options vars [= <- <-]; cbn; split; auto.
  destruct (Store.loaded redis) as [err1|[]].
  { destruct (Env.isProduction config).
    - split; [discriminate|done].
    - split; [|discriminate]. intros options vars [= <- <-]. cbn.
      split; [|done]. intros _. right. split; [done|]. left. eauto. }
  destruct (Store.connected redis) as [err2|[]].
  { destruct (Env.isProduction config).
    - split; [discriminate|done].
    - split; [|discriminate]. intros options vars [= <- <-]. cbn.
      split; [|done]. intros _. right. split; [done|]. right. left. eauto. }
  destruct (Store.stored redis) as [err3|[]].
  { destruct (Env.isProduction config).
    - split; [discriminate|done].
    - split; [|discriminate]. intros options vars [= <- <-]. cbn.
      split; [|done]. intros _. right. split; [done|]. right. right. eauto. }
  split.
  - intros options vars [= <- <-]. cbn. split; [discriminate|].
    intros [[|]|[_ [[err ?]|[[err ?]|[err ?]]]]]; discriminate.
  - intros _ _ [[err ?]|[[err ?]|[err ?]]]; discriminate.
Qed.

Lemma createSessionMiddleware_store_witness :
  (Store.createSessionMiddleware
     {| Env.port := 3000;
        Env.nodeEnv := js "production";
        Env.isProduction := true;
        Env.sessionSettings :=
          {| Env.secret := js "session-secret-1";
             Env.cookieSecure := true;
             Env.cookieSameSite := js "lax";
             Env.redisUrl := Some (js "redis://cache.example.com:6379") |};
        Env.settings := Sample.config |}
     {| Store.loaded := inr tt;
        Store.connected := inl (mkError (js "ECONNREFUSED"));
        Store.stored := inr tt |}).1
  = inl Store.productionNeedsRedis.
Proof.
  apply createSessionMiddleware_store.
  - intros [H|H]; discriminate H.
  - reflexivity.
  - right. left. eexists. reflexivity.
Defined.

(** The module variable [redisClient] is set as soon as the client could
    be created, whatever follows. *)
Lemma createSessionMiddleware_client
    (config : Env.Loaded) (redis : Store.Redis) :
  Store.redisClient (Store.createSessionMiddleware config redis).2
  = match Env.redisUrl (Env.sessionSettings config) with
    | Some (_ :: _) =>
        match Store.loaded redis with
        | inr _ => true
        | inl _ => false
        end
    | _ => false
    end.
Proof.
  unfold Store.createSessionMiddleware.
  destruct (Env.redisUrl (Env.sessionSettings config)) as [[|c url]|];
    try done.
  destruct (Store.loaded redis) as [err1|[]];
    [by destruct (Env.isProduction config)|].
  destruct (Store.connected redis) as [err2|[]];
    [by destruct (Env.isProduction config)|].
  destruct (Store.stored redis) as [err3|[]];
    [by destruct (Env.isProduction config)|].
  done.
Qed.

(** X18.  Once [createSessionMiddleware] has returned, the readiness probe
    answers 200 exactly when no Redis URL is configured, or when the Redis
    client could be created and the ping succeeds: a development server
    that fell back to the memory store stays not ready while Redis is
    down. *)
Theorem readyz_after_start
    (config : Env.Loaded) (redis : Store.Redis)
    (options : Store.SessionOptions) (vars : Store.Variables)
    (ping : result unit) :
  Store.createSessionMiddleware config redis = (inr options, vars) ->
  (Routes.readyz config vars ping = 200%Z <->
   (Env.redisUrl (Env.sessionSettings config) = None
    \/ Env.redisUrl (Env.sessionSettings config) = Some [])
   \/ (Store.loaded redis = inr tt /\ ping = inr tt))
  /\ (Routes.readyz config vars ping = 200%Z
      \/ Routes.readyz config vars ping = 503%Z).
Proof.
  intros Hstart.
  pose proof (createSessionMiddleware_client config redis) as Hclient.
  rewrite Hstart in Hclient. cbn [snd] in Hclient.
  unfold Routes.readyz, Store.checkRedisHealth. rewrite Hclient.
  destruct (Env.redisUrl (Env.sessionSettings config)) as [[|c url]|];
    cbn [negb].
  1, 3: split; [split; auto|auto].
  destruct (Store.loaded redis) as [err|[]]; cbn [negb].
  - split; [|auto]. split; [discriminate|].
    intros [[|]|[? _]]; discriminate.
  - destruct ping as [err|[]].
    + split; [|auto]. split; [discriminate|].
      intros [[|]|[_ ?]]; discriminate.
    + split; [|auto]. split; auto.
Qed.

Lemma readyz_after_start_witness :
  Routes.readyz
    {| Env.port := 3000;
       Env.nodeEnv := js "development";
       Env.isProduction := false;
       Env.sessionSettings :=
         {| Env.secret := js "session-secret-1";
            Env.cookieSecure := false;
            Env.cookieSameSite := js "lax";
            Env.redisUrl := Some (js "redis://localhost:6379") |};
       Env.settings := Sample.config |}
    {| Store.redisClient := true; Store.redisStore := false |}
    (inl (mkError (js "ECONNREFUSED")))
  = 503%Z.
Proof.
  destruct (readyz_after_start
              {| Env.port := 3000;
                 Env.nodeEnv := js "development";
                 Env.isProduction := false;
                 Env.sessionSettings :=
                   {| Env.secret := js "session-secret-1";
                      Env.cookieSecure := false;
                      Env.cookieSameSite := js "lax";
                      Env.redisUrl := Some (js "redis://localhost:6379") |};
                 Env.settings := Sample.config |}
              {| Store.loaded := inr tt;
                 Store.connected := inl (mkError (js "ECONNREFUSED"));
                 Store.stored := inr tt |}
              _ _ (inl (mkError (js "ECONNREFUSED"))) eq_refl)
    as [Hready [H|H]]; [|exact H].
  apply Hready in H as [[H|H]|[_ H]]; discriminate H.
Defined.

(** ** The settings *)

Section LoadConfig.

Variable env : gmap jsstring jsstring.

Lemma unset_spec (key : jsstring) :
  Env.unset env key = true <-> env !! key = None \/ env !! key = Some [].
Proof.
  unfold Env.unset. destruct (env !! key) as [[|c s]|]; split; auto.
  - discriminate.
  - intros [|]; discriminate.
Qed.

Lemma envOr_set (key fallback : jsstring) :
  Env.unset env key = false -> env !! key = Some (Env.envOr env key fallback).
Proof.
  unfold Env.unset, Env.envOr. by destruct (env !! key) as [[|c s]|].
Qed.

Lemma envOr_production :
  Env.envOr env (js "NODE_ENV") (js "development") = js "production" <->
  env !! js "NODE_ENV" = Some (js "production").
Proof.
  unfold Env.envOr. destruct (env !! js "NODE_ENV") as [[|c s]|]; cbn.
  - split; [intros H|intros [= H]]; vm_compute in H; discriminate H.
  - split; congruence.
  - split; [intros H|intros H]; vm_compute in H; discriminate H.
Qed.

Lemma missingOf_production (key : jsstring) :
  key ∈ Env.missingOf env true <->
  In key Env.requiredInProduction /\ Env.unset env key = true.
Proof.
  unfold Env.missingOf, Env.requiredAlways. rewrite filter_nil, app_nil_l.
  rewrite list_elem_of_filter, list_elem_of_In. tauto.
Qed.

Variable parseInt10 : option jsstring -> option Z.
Variable numberToString : Z -> jsstring.
Variable toLowerCase : jsstring -> jsstring.

(** What a configuration loaded in production holds. *)
Lemma loadConfig_production (config : Env.Loaded) :
  Env.loadConfig env parseInt10 numberToString toLowerCase = inr config ->
  Env.isProduction config = true ->
  forall key, In key Env.requiredInProduction -> Env.unset env key = false.
Proof.
  unfold Env.loadConfig.
  destruct (bool_decide _) eqn:Hprod.
  2: { rewrite andb_false_r. by intros [= <-]. }
  rewrite andb_true_r.
  destruct (Env.missingOf env true) as [|k rest] eqn:Hmissing; [|discriminate].
  intros _ _ key Hkey. apply not_true_is_false. intros Hunset.
  assert (key ∈ Env.missingOf env true) as Hin
    by by apply missingOf_production.
  rewrite Hmissing in Hin. by apply elem_of_nil in Hin.
Qed.

End LoadConfig.

(** X19.  [loadConfig] throws exactly when [NODE_ENV] is [production] and
    one of the seven variables required there is unset or empty; in every
    other environment, complete or not, it returns a configuration. *)
Theorem loadConfig_fails
    (env : gmap jsstring jsstring)
    (parseInt10 : option jsstring -> option Z)
    (numberToString : Z -> jsstring) (toLowerCase : jsstring -> jsstring) :
  (exists err,
     Env.loadConfig env parseInt10 numberToString toLowerCase = inl err)
  <->
  env !! js "NODE_ENV" = Some (js "production")
  /\ exists key,
       In key [js "SESSION_SECRET"; js "REDIS_URL"; js "ENTRA_TENANT_ID";
               js "ENTRA_CLIENT_ID"; js "ENTRA_CLIENT_SECRET";
               js "ENTRA_ALLOWED_GROUP_ID"; js "BASE_URL"]
       /\ (env !! key = None \/ env !! key = Some []).
Proof.
  unfold Env.loadConfig.
  destruct (bool_decide _) eqn:Hprod.
  - apply bool_decide_eq_true in Hprod. apply envOr_production in Hprod.
    rewrite andb_true_r.
    destruct (Env.missingOf env true) as [|k rest] eqn:Hmissing.
    + split; [by intros [err ?]|]. intros (_ & key & Hkey & Hunset).
      assert (key ∈ Env.missingOf env true) as Hin.
      { apply (proj2 (missingOf_production env key)).
        split; [done|]. by apply unset_spec. }
      rewrite Hmissing in Hin. by apply elem_of_nil in Hin.
    + split; [|by eexists]. intros _. split; [done|].
      assert (k ∈ Env.missingOf env true) as Hin
        by (rewrite Hmissing; left).
      apply missingOf_production in Hin as [Hk Hunset].
      exists k. split; [done|]. by apply unset_spec.
  - apply bool_decide_eq_false in Hprod. rewrite andb_false_r.
    split; [by intros [err ?]|]. intros [Hnode _].
    by apply envOr_production in Hnode.
Qed.

Example loadConfig_incomplete :
  Env.loadConfig Fixture.incomplete Fixture.parseInt10 Fixture.numberToString
    Server.asciiLowerCase
  = inl (mkError (js "Missing required environment variables: REDIS_URL")).
Proof. vm_compute. reflexivity. Qed.

Example loadConfig_development :
  match Env.loadConfig ∅ Fixture.parseInt10 Fixture.numberToString
          Server.asciiLowerCase with
  | inr config =>
      baseUrl (Env.settings config) = js "http://localhost:3000"
      /\ Env.port config = 3000%Z
      /\ allowedGroupId (entra (Env.settings config)) = []
      /\ enablePasswordLogin (legacy (Env.settings config)) = false
  | inl _ => False
  end.
Proof. vm_compute. repeat split. Qed.

(** X20.  Under a configuration loaded in production the group check is
    never open: [checkGroupMembership] returns [true] only for claims that
    carry a [groups] array with the group of [ENTRA_ALLOWED_GROUP_ID]. *)
Theorem production_group_check
    (env : gmap jsstring jsstring)
    (parseInt10 : option jsstring -> option Z)
    (numberToString : Z -> jsstring) (toLowerCase : jsstring -> jsstring)
    (config : Env.Loaded) (payload : object) (tokenSet : TokenSet) :
  Env.loadConfig env parseInt10 numberToString toLowerCase = inr config ->
  Env.isProduction config = true ->
  checkGroupMembership (Env.settings config) payload tokenSet = inr true ->
  exists group items,
    env !! js "ENTRA_ALLOWED_GROUP_ID" = Some group
    /\ get payload (js "groups") = VArr items
    /\ In (VStr group) items.
Proof.
  intros Hload Hprod Hcheck.
  pose proof (loadConfig_production env parseInt10 numberToString toLowerCase
                config Hload Hprod (js "ENTRA_ALLOWED_GROUP_ID")) as Hset.
  assert (Hgroup : env !! js "ENTRA_ALLOWED_GROUP_ID"
                   = Some (allowedGroupId (entra (Env.settings config)))).
  { unfold Env.loadConfig in Hload.
    destruct (_ && _); [discriminate|]. injection Hload as <-.
    apply envOr_set, Hset. vm_compute. tauto. }
  assert (Hid : allowedGroupId (entra (Env.settings config)) <> []).
  { intros Hnil. rewrite Hnil in Hgroup.
    assert (Env.unset env (js "ENTRA_ALLOWED_GROUP_ID") = true) as Hunset
      by (apply unset_spec; by right).
    rewrite Hset in Hunset; [done|]. vm_compute. tauto. }
  rewrite checkGroupMembership_configured in Hcheck by done.
  destruct (get payload (js "groups")) as [| | | | |items|];
    try (destruct (truthy _); discriminate Hcheck).
  exists (allowedGroupId (entra (Env.settings config))), items.
  split; [done|]. split; [done|].
  apply arrayIncludes_In. congruence.
Qed.

Lemma production_group_check_witness :
  exists group items,
    Fixture.production !! js "ENTRA_ALLOWED_GROUP_ID" = Some group
    /\ get Sample.payload (js "groups") = VArr items
    /\ In (VStr group) items.
Proof.
  destruct (Env.loadConfig Fixture.production Fixture.parseInt10
              Fixture.numberToString Server.asciiLowerCase)
    as [err|config] eqn:Hload; [vm_compute in Hload; discriminate Hload|].
  apply (production_group_check Fixture.production Fixture.parseInt10
           Fixture.numberToString Server.asciiLowerCase config Sample.payload
           (Sample.tokenSetOf Sample.payload) Hload).
  - vm_compute in Hload. injection Hload as <-. reflexivity.
  - vm_compute in Hload. injection Hload as <-. vm_compute. reflexivity.
Defined.

(** X21.  Under a configuration loaded in production the sessions are
    never kept in memory: [createSessionMiddleware] returns with the Redis
    store, after a connection that succeeded, or throws. *)
Theorem production_store
    (env : gmap jsstring jsstring)
    (parseInt10 : option jsstring -> option Z)
    (numberToString : Z -> jsstring) (toLowerCase : jsstring -> jsstring)
    (config : Env.Loaded) (redis : Store.Redis)
    (options : Store.SessionOptions) (vars : Store.Variables) :
  Env.loadConfig env parseInt10 numberToString toLowerCase = inr config ->
  Env.isProduction config = true ->
  Store.createSessionMiddleware config redis = (inr options, vars) ->
  Store.store options
    = Some {| Store.prefix := js "broenlab:sess:"; Store.ttl := 86400 |}
  /\ Store.connected redis = inr tt
  /\ Store.secret options = default [] (env !! js "SESSION_SECRET").
Proof.
  intros Hload Hprod.
  pose proof (loadConfig_production env parseInt10 numberToString toLowerCase
                config Hload Hprod) as Hset.
  assert (Hredis : Env.unset env (js "REDIS_URL") = false)
    by (apply Hset; vm_compute; tauto).
  assert (Hsecret : Env.unset env (js "SESSION_SECRET") = false)
    by (apply Hset; vm_compute; tauto).
  unfold Env.loadConfig in Hload.
  destruct (_ && _); [discriminate|]. injection Hload as <-.
  unfold Store.createSessionMiddleware. cbn [Env.sessionSettings Env.redisUrl
    Env.isProduction Env.secret Env.cookieSecure Env.cookieSameSite].
  cbn [Env.isProduction] in Hprod. rewrite Hprod.
  unfold Env.unset in Hredis.
  destruct (env !! js "REDIS_URL") as [[|c url]|]; try discriminate.
  destruct (Store.loaded redis) as [err1|[]]; [discriminate|].
  destruct (Store.connected redis) as [err2|[]]; [discriminate|].
  destruct (Store.stored redis) as [err3|[]]; [discriminate|].
  intros [= <- <-]. cbn [Store.store Store.secret].
  split; [done|]. split; [done|].
  by rewrite (envOr_set env (js "SESSION_SECRET")
                (js "dev-session-secret-change-in-production") Hsecret).
Qed.

Lemma production_store_witness :
  exists config options,
    Env.loadConfig Fixture.production Fixture.parseInt10
      Fixture.numberToString Server.asciiLowerCase = inr config
    /\ (Store.createSessionMiddleware config
          {| Store.loaded := inr tt; Store.connected := inr tt;
                 Store.stored := inr tt |}).1
       = inr options
    /\ Store.secret options = js "session-secret-1".
Proof.
  destruct (Env.loadConfig Fixture.production Fixture.parseInt10
              Fixture.numberToString Server.asciiLowerCase)
    as [err|config] eqn:Hload; [vm_compute in Hload; discriminate Hload|].
  destruct (Store.createSessionMiddleware config
              {| Store.loaded := inr tt; Store.connected := inr tt;
                 Store.stored := inr tt |})
    as [[err|options] vars] eqn:Hstart.
  { vm_compute in Hload. injection Hload as <-.
    vm_compute in Hstart. discriminate Hstart. }
  exists config, options. split; [reflexivity|].
  split; [by rewrite Hstart|].
  destruct (production_store Fixture.production Fixture.parseInt10
              Fixture.numberToString Server.asciiLowerCase config
              {| Store.loaded := inr tt; Store.connected := inr tt;
                 Store.stored := inr tt |}
              options vars Hload) as (_ & _ & Hsecret).
  - vm_compute in Hload. injection Hload as <-. reflexivity.
  - exact Hstart.
  - rewrite Hsecret. vm_compute. reflexivity.
Defined.

(** X22.  Whatever [SESSION_COOKIE_SAMESITE] holds, the [sameSite]
    attribute of the session cookie is one of [lax], [strict] and
    [none]. *)
Theorem loadConfig_sameSite
    (env : gmap jsstring jsstring)
    (parseInt10 : option jsstring -> option Z)
    (numberToString : Z -> jsstring) (toLowerCase : jsstring -> jsstring)
    (config : Env.Loaded) :
  Env.loadConfig env parseInt10 numberToString toLowerCase = inr config ->
  In (Env.cookieSameSite (Env.sessionSettings config))
    [js "lax"; js "strict"; js "none"].
Proof.
  unfold Env.loadConfig. destruct (_ && _); [discriminate|].
  intros [= <-]. cbn [Env.sessionSettings Env.cookieSameSite].
  unfold Env.parseSameSite. case_bool_decide as Hvalid.
  - by apply list_elem_of_In.
  - by left.
Qed.

Lemma loadConfig_sameSite_witness :
  match Env.loadConfig Fixture.production Fixture.parseInt10
          Fixture.numberToString Server.asciiLowerCase with
  | inr config =>
      In (Env.cookieSameSite (Env.sessionSettings config))
        [js "lax"; js "strict"; js "none"]
      /\ Env.cookieSameSite (Env.sessionSettings config) = js "strict"
  | inl _ => False
  end.
Proof.
  destruct (Env.loadConfig Fixture.production Fixture.parseInt10
              Fixture.numberToString Server.asciiLowerCase)
    as [err|config] eqn:Hload; [vm_compute in Hload; discriminate Hload|].
  split.
  - exact (loadConfig_sameSite Fixture.production Fixture.parseInt10
             Fixture.numberToString Server.asciiLowerCase config Hload).
  - vm_compute in Hload. injection Hload as <-. reflexivity.
Defined.

(** X23.  Without [ENABLE_LEGACY_PASSWORD_LOGIN] set to [true] or [1], a
    loaded configuration makes the proxy turn down every request that has
    no session of an authorized user, whatever cookie it carries and
    whatever [jwt.verify] would say. *)
Theorem legacy_login_off_by_default
    (env : gmap jsstring jsstring)
    (parseInt10 : option jsstring -> option Z)
    (numberToString : Z -> jsstring) (toLowerCase : jsstring -> jsstring)
    (config : Env.Loaded)
    (jwt_verify : value -> jsstring -> result value)
    (req : Server.Request) :
  env !! js "ENABLE_LEGACY_PASSWORD_LOGIN" <> Some (js "true") ->
  env !! js "ENABLE_LEGACY_PASSWORD_LOGIN" <> Some (js "1") ->
  Env.loadConfig env parseInt10 numberToString toLowerCase = inr config ->
  Server.sessionAuthorized req = false ->
  Server.authenticateProxy (Env.settings config) jwt_verify req
  = Server.Respond (Server.jsonError 401 (js "Not authenticated")).
Proof.
  intros Htrue Hone Hload Hsession.
  unfold Env.loadConfig in Hload.
  destruct (_ && _); [discriminate|]. injection Hload as <-.
  unfold Server.authenticateProxy, Server.legacyAdmits.
  rewrite Hsession. cbn [Env.settings legacy enablePasswordLogin].
  unfold Env.parseBool.
  destruct (env !! js "ENABLE_LEGACY_PASSWORD_LOGIN") as [[|c s]|]; try done.
  rewrite !bool_decide_eq_false_2; [done|congruence|congruence].
Qed.

Lemma legacy_login_off_by_default_witness :
  match Env.loadConfig Fixture.production Fixture.parseInt10
          Fixture.numberToString Server.asciiLowerCase with
  | inr config =>
      Server.authenticateProxy (Env.settings config) Sample.jwt_verify
        Sample.legacyRequest
      = Server.Respond (Server.jsonError 401 (js "Not authenticated"))
  | inl _ => False
  end.
Proof.
  destruct (Env.loadConfig Fixture.production Fixture.parseInt10
              Fixture.numberToString Server.asciiLowerCase)
    as [err|config] eqn:Hload; [vm_compute in Hload; discriminate Hload|].
  apply (legacy_login_off_by_default Fixture.production Fixture.parseInt10
           Fixture.numberToString Server.asciiLowerCase config
           Sample.jwt_verify Sample.legacyRequest).
  - vm_compute. discriminate.
  - vm_compute. discriminate.
  - exact Hload.
  - reflexivity.
Defined.

(** ** The proxy routes, continued *)

Lemma authenticated_app
    (config : Config)
    (jwt_verify : value -> jsstring -> result value)
    (fetch : jsstring -> Server.FetchInit -> result Server.FetchResponse)
    (JSON_stringify : value -> jsstring)
    (toLowerCase : jsstring -> jsstring)
    (path : Server.Path) (req : Server.Request) :
  Server.authenticateProxy config jwt_verify req = Server.Next ->
  Server.app config jwt_verify fetch JSON_stringify toLowerCase path req
  = Server.handlerOf config fetch JSON_stringify toLowerCase path req.
Proof.
  intros Hnext. destruct path; cbn [Server.app Server.handlerOf];
    unfold Server.proxyWebhook, Server.proxyWebhookTest, Server.guarded;
    by rewrite Hnext.
Qed.

(** X24.  Of a request it lets through, the proxy reads the method, the
    content type and the body only: two such requests that agree on the
    three lead to the same call of [fetch] and to the same status, headers
    and body handed to [res.send] or [res.json], whatever their cookies
    and sessions. *)
Theorem proxy_reads
    (config : Config)
    (jwt_verify : value -> jsstring -> result value)
    (fetch : jsstring -> Server.FetchInit -> result Server.FetchResponse)
    (JSON_stringify : value -> jsstring)
    (toLowerCase : jsstring -> jsstring)
    (path : Server.Path) (req req' : Server.Request) :
  Server.method req = Server.method req' ->
  Server.contentType req = Server.contentType req' ->
  Server.body req = Server.body req' ->
  Server.authenticateProxy config jwt_verify req = Server.Next ->
  Server.authenticateProxy config jwt_verify req' = Server.Next ->
  Server.app config jwt_verify fetch JSON_stringify toLowerCase path req
  = Server.app config jwt_verify fetch JSON_stringify toLowerCase path req'.
Proof.
  intros Hmethod Htype Hbody Hnext Hnext'.
  rewrite !authenticated_app by done.
  assert (Hinit : Server.upstreamInit config JSON_stringify req
                  = Server.upstreamInit config JSON_stringify req').
  { unfold Server.upstreamInit, Server.upstreamHeaders.
    by rewrite Hmethod, Htype, Hbody. }
  destruct path; cbn [Server.handlerOf];
    unfold Server.webhookHandler, Server.webhookTestHandler, Server.forward;
    by rewrite Hinit.
Qed.

Lemma proxy_reads_witness :
  Server.app Sample.legacyConfig Sample.jwt_verify Sample.fetch
    Sample.JSON_stringify Server.asciiLowerCase Server.webhook Sample.member
  = Server.app Sample.legacyConfig Sample.jwt_verify Sample.fetch
      Sample.JSON_stringify Server.asciiLowerCase Server.webhook
      Sample.legacyRequest.
Proof.
  apply proxy_reads; reflexivity.
Defined.

(** X25.  Without a test URL, the test path of the proxy does what the
    main path does, on every request. *)
Theorem proxyWebhookTest_falls_back
    (config : Config)
    (jwt_verify : value -> jsstring -> result value)
    (fetch : jsstring -> Server.FetchInit -> result Server.FetchResponse)
    (JSON_stringify : value -> jsstring)
    (toLowerCase : jsstring -> jsstring)
    (req : Server.Request) :
  webhookUrlTest (n8n config) = [] ->
  Server.proxyWebhookTest config jwt_verify fetch JSON_stringify toLowerCase
    req
  = Server.proxyWebhook config jwt_verify fetch JSON_stringify toLowerCase
      req.
Proof.
  intros Hnone.
  unfold Server.proxyWebhookTest, Server.proxyWebhook, Server.guarded,
    Server.webhookTestHandler, Server.webhookHandler.
  by rewrite Hnone.
Qed.

Lemma proxyWebhookTest_falls_back_witness :
  Server.proxyWebhookTest Sample.config Sample.jwt_verify Sample.fetch
    Sample.JSON_stringify Server.asciiLowerCase Sample.member
  = Server.proxyWebhook Sample.config Sample.jwt_verify Sample.fetch
      Sample.JSON_stringify Server.asciiLowerCase Sample.member.
Proof.
  apply proxyWebhookTest_falls_back. reflexivity.
Defined.

Lemma base64Digit_range (i : N) :
  43 <= Server.base64Digit i <= 122.
Proof.
  unfold Server.base64Digit.
  destruct (N.ltb_spec i 26); [lia|].
  destruct (N.ltb_spec i 52); [lia|].
  destruct (N.ltb_spec i 62); [lia|].
  destruct (N.eqb_spec i 62); lia.
Qed.

Lemma base64_range (bytes : list N) :
  Forall (fun c => 43 <= c <= 122) (Server.base64 bytes).
Proof.
  remember (length bytes) as n eqn:Hn. revert bytes Hn.
  induction n as [n IH] using lt_wf_ind. intros bytes ->.
  pose proof base64Digit_range as Hdigit.
  destruct bytes as [|a [|b [|c rest]]]; cbn [Server.base64].
  - constructor.
  - repeat constructor; (apply Hdigit || lia).
  - repeat constructor; (apply Hdigit || lia).
  - repeat (constructor; [apply Hdigit|]).
    apply (IH (length rest)); [cbn; lia|done].
Qed.

(** X26.  Whatever the configured credentials hold, line breaks and the
    units beyond ASCII included, the value of the [Authorization] header
    handed to [fetch] is made of printable ASCII units only. *)
Theorem upstreamHeaders_authorization
    (config : Config) (req : Server.Request) :
  exists contentType credentials,
    Server.upstreamHeaders config req
    = [(js "Content-Type", contentType); (js "Authorization", credentials)]
    /\ Forall (fun c => 32 <= c <= 126) credentials.
Proof.
  unfold Server.upstreamHeaders. eexists _, _. split; [reflexivity|].
  apply Forall_app. split.
  - literals. repeat constructor; lia.
  - eapply Forall_impl; [apply base64_range|]. cbn. lia.
Qed.

Example upstreamHeaders_line_break :
  Server.upstreamHeaders
    {| baseUrl := [];
       entra := entra Sample.config;
       n8n := {| webhookUrl := []; webhookUrlTest := [];
                 username := [117; 13; 10];
                 password := [233] |};
       legacy := legacy Sample.config |}
    Sample.member
  = [(js "Content-Type", js "application/json");
     (js "Authorization", js "Basic dQ0KOsOp")].
Proof. reflexivity. Qed.

(** ** The legacy login *)

(** X27.  The legacy login sets its cookie only for the configured user
    name and password, given as strings, and under the name the proxy
    reads: when [jsonwebtoken] verifies, under the secret, the tokens it
    signs under it, a request that brings the cookie back is let through
    by [authenticateProxy] while the legacy login is enabled. *)
Theorem legacyLogin_admits
    (config : Env.Loaded)
    (jwt_sign : value -> jsstring -> result jsstring)
    (jwt_verify : value -> jsstring -> result value)
    (login : Routes.LoginRequest) (cookie : Routes.Cookie) (answer : value)
    (req : Server.Request) :
  (forall payload token,
     jwt_sign payload (jwtSecret (legacy (Env.settings config))) = inr token ->
     token <> []
     /\ exists verified,
          jwt_verify (VStr token) (jwtSecret (legacy (Env.settings config)))
          = inr verified) ->
  enablePasswordLogin (legacy (Env.settings config)) = true ->
  Routes.legacyLogin config jwt_sign login = Routes.LoggedIn cookie answer ->
  get (Server.cookies req) (Routes.cookieName cookie)
    = VStr (Routes.cookieValue cookie) ->
  prop (or (Routes.body login) (VObj [])) (js "username")
    = VStr (username (n8n (Env.settings config)))
  /\ prop (or (Routes.body login) (VObj [])) (js "password")
     = VStr (password (n8n (Env.settings config)))
  /\ Routes.cookieHttpOnly cookie = true
  /\ Server.authenticateProxy (Env.settings config) jwt_verify req
     = Server.Next.
Proof.
  intros Hjwt Henabled. unfold Routes.legacyLogin.
  destruct (eqStr _ _) eqn:Huser; [|discriminate].
  destruct (eqStr (prop _ (js "password")) _) eqn:Hpass; [|discriminate].
  cbn [andb].
  destruct (jwt_sign _ _) as [err|token] eqn:Hsign; [discriminate|].
  intros [= <- _]. cbn [Routes.cookieName Routes.cookieValue
    Routes.cookieHttpOnly]. intros Hcookie.
  apply eqStr_true in Huser, Hpass.
  split; [done|]. split; [done|]. split; [done|].
  destruct (Hjwt _ _ Hsign) as [Htoken [verified Hverify]].
  apply authenticateProxy_next. right. apply legacyAdmits_true.
  rewrite Hcookie. split; [done|]. split; [by destruct token|eauto].
Qed.

Lemma legacyLogin_admits_witness :
  Server.authenticateProxy Sample.legacyConfig Sample.jwt_verify
    Sample.legacyRequest
  = Server.Next.
Proof.
  destruct (legacyLogin_admits
              {| Env.port := 3000;
                 Env.nodeEnv := js "development";
                 Env.isProduction := false;
                 Env.sessionSettings :=
                   {| Env.secret := js "session-secret-1";
                      Env.cookieSecure := false;
                      Env.cookieSameSite := js "lax";
                      Env.redisUrl := None |};
                 Env.settings := Sample.legacyConfig |}
              Fixture.jwt_sign Sample.jwt_verify
              {| Routes.body :=
                   VObj [(js "username", VStr (js "user"));
                         (js "password", VStr (js "pass"))];
                 Routes.secure := false;
                 Routes.forwardedProto := None |}
              {| Routes.cookieName := js "session";
                 Routes.cookieValue := js "token-1";
                 Routes.cookieHttpOnly := true;
                 Routes.cookieSecure := false;
                 Routes.cookieSameSite := js "lax";
                 Routes.cookieMaxAge := 7200000 |}
              (VObj [(js "ok", VBool true)])
              Sample.legacyRequest)
    as (_ & _ & _ & H).
  - intros payload token [= <-]. split; [vm_compute; discriminate|].
    eexists. vm_compute. reflexivity.
  - reflexivity.
  - reflexivity.
  - reflexivity.
  - exact H.
Defined.

(** With no credentials configured, the strings the comparison is made
    with are empty: the empty user name and password log in. *)
Example legacyLogin_unset_credentials :
  match Env.loadConfig Fixture.development Fixture.parseInt10
          Fixture.numberToString Server.asciiLowerCase,
        Env.loadConfig
          (delete (js "N8N_PASSWORD")
             (delete (js "N8N_USERNAME") Fixture.development))
          Fixture.parseInt10 Fixture.numberToString Server.asciiLowerCase
  with
  | inr config, inr bare =>
      Routes.legacyLogin config Fixture.jwt_sign
        {| Routes.body := VObj [(js "username", VStr []);
                                (js "password", VStr [])];
           Routes.secure := false;
           Routes.forwardedProto := None |}
      = Routes.Refused 401
          (VObj [(js "ok", VBool false);
                 (js "error", VStr (js "Invalid credentials"))])
      /\ exists cookie answer,
           Routes.legacyLogin bare Fixture.jwt_sign
             {| Routes.body := VObj [(js "username", VStr []);
                                     (js "password", VStr [])];
                Routes.secure := false;
                Routes.forwardedProto := None |}
           = Routes.LoggedIn cookie answer
  | _, _ => False
  end.
Proof. vm_compute. split; [reflexivity|]. eexists _, _. reflexivity. Qed.

(** ** The serverless relay *)

(** X28.  With a webhook URL set, the function of [api/webhook/index.js]
    does what the one of [api/webhook.js] does; without one it answers 500
    and makes no request, where the other still calls [fetch]. *)
Theorem webhookIndex_guards
    (webhookUrl : option jsstring)
    (fetch : option jsstring -> Api.Init -> result Api.Upstream)
    (JSON_stringify : value -> option jsstring) (reqBody : value) :
  ((exists c url, webhookUrl = Some (c :: url)) ->
   Api.webhookIndex webhookUrl fetch JSON_stringify reqBody
   = Api.webhook webhookUrl fetch JSON_stringify reqBody)
  /\ (webhookUrl = None \/ webhookUrl = Some [] ->
      Api.calls (Api.webhookIndex webhookUrl fetch JSON_stringify reqBody)
      = []
      /\ Api.status
           (Api.res (Api.webhookIndex webhookUrl fetch JSON_stringify reqBody))
         = 500%Z
      /\ length (Api.calls (Api.webhook webhookUrl fetch JSON_stringify
                              reqBody)) = 1%nat).
Proof.
  unfold Api.webhookIndex, Api.webhook. split.
  - by intros (c & url & ->).
  - by intros [->| ->].
Qed.

Lemma webhookIndex_guards_witness :
  Api.calls
    (Api.webhookIndex None (fun _ _ => inl (mkError (js "Invalid URL")))
       (fun _ => None) VUndefined) = []
  /\ Api.webhookIndex (Some (js "https://n8n.example.com/webhook/chat"))
       (fun _ _ => inl (mkError (js "Invalid URL"))) (fun _ => None)
       VUndefined
     = Api.webhook (Some (js "https://n8n.example.com/webhook/chat"))
         (fun _ _ => inl (mkError (js "Invalid URL"))) (fun _ => None)
         VUndefined.
Proof.
  split.
  - apply (webhookIndex_guards None). by left.
  - apply webhookIndex_guards. eexists _, _. reflexivity.
Defined.

(** ** The login route *)

(** X29.  When [getOidcClient] has resolved to a client, a login without a
    [returnTo] parameter, or with an empty one, stores [/chat.html] as
    return path, whatever the base URL, with the values it drew and the
    time, and leaves the user and the identifier of the session alone;
    when [getOidcClient] rejects, the login stores nothing: the route
    hands the error to [next] and the request is as it was. *)
Theorem loginRoute_default
    (config : Config) (new_URL : parser) (oidc : result Client)
    (codeChallenge : jsstring -> jsstring) (drawn : Drawn) (now : Z)
    (req : Request) :
  truthy (get (query req) (js "returnTo")) = false ->
  match oidc with
  | inr client =>
      (loginRoute config new_URL oidc codeChallenge drawn now req).2
      = {| sessionID := sessionID req;
           session :=
             {| user := user (Auth.session req);
                oidcTransaction :=
                  Some {| state := drawnState drawn;
                          nonce := drawnNonce drawn;
                          codeVerifier := drawnCodeVerifier drawn;
                          returnTo := js "/chat.html";
                          createdAt := now |} |};
           query := query req |}
  | inl err =>
      loginRoute config new_URL oidc codeChallenge drawn now req
      = (NextError err, req)
  end.
Proof.
  intros Hnone. unfold loginRoute, buildAuthorizationUrl, or.
  destruct oidc as [err|client]; run.
  - by destruct req.
  - rewrite Hnone. reflexivity.
Qed.

Lemma loginRoute_default_witness :
  (loginRoute Sample.config sample Sample.oidc Sample.codeChallenge
     Sample.drawn 1000
     {| sessionID := js "sid-1";
        session := {| user := None; oidcTransaction := None |};
        query := [(js "returnTo", VStr [])] |}).2
  = {| sessionID := js "sid-1";
       session := Sample.pending;
       query := [(js "returnTo", VStr [])] |}
  /\ loginRoute Sample.config sample (inl Guards.NotConfigured)
       Sample.codeChallenge Sample.drawn 1000
       {| sessionID := js "sid-1";
          session := {| user := None; oidcTransaction := None |};
          query := [] |}
     = (NextError Guards.NotConfigured,
        {| sessionID := js "sid-1";
           session := {| user := None; oidcTransaction := None |};
           query := [] |}).
Proof.
  split.
  - apply (loginRoute_default Sample.config sample Sample.oidc
             Sample.codeChallenge Sample.drawn 1000
             {| sessionID := js "sid-1";
                session := {| user := None; oidcTransaction := None |};
                query := [(js "returnTo", VStr [])] |}).
    reflexivity.
  - apply (loginRoute_default Sample.config sample
             (inl Guards.NotConfigured) Sample.codeChallenge Sample.drawn
             1000
             {| sessionID := js "sid-1";
                session := {| user := None; oidcTransaction := None |};
                query := [] |}).
    reflexivity.
Defined.
